(** * psoas-watcher: a shallow embedding of [watch_psoas.py]

    The watcher fetches one page, normalises it to text, fingerprints the
    text, extracts listing links, compares all of that with the state kept
    on disk by the previous run, and notifies over Telegram and e-mail.

    Conventions of the embedding.
    - A Python [str] is a [list ascii]; a character stands for the code
      point of the same number, so the development covers the code points
      below 256.
    - Python sets of strings are [gset str]; [os.environ] and the files
      under the state directory are [gmap]s.
    - Code with effects runs in a state-and-exception monad over a [world]
      record that holds the environment, the file system, the behaviour of
      the network collaborators and the trace of what the run did.
    - Library functions the script imports (BeautifulSoup's parser, SHA-256,
      [difflib.unified_diff], [urllib.parse.urljoin]) are operations of the
      [Externals] interface; the script's own logic is written out.
    - The network decides whether a fetch, a Telegram POST or an SMTP
      session succeeds; a file is known by the path the script opens it
      with; a file that exists is read as text or raises on reading.
      Creating the state directory and writing a file are taken
      to succeed: the world has no full disk, no missing permission and no
      regular file where the state directory should be, and directories
      are not recorded in it. *)

From Stdlib Require Import String Ascii List ZArith Lia Bool DecimalString.
From stdpp Require Import gmap strings list sorting.

(** ** Python strings *)

Abbreviation str := (list ascii).

Definition lit (s : string) : str := list_ascii_of_string s.
Coercion lit : string >-> list.

Definition code (c : ascii) : N := N_of_ascii c.

Module Py.

(** [str.isspace] on one character, for code points below 256:
    TAB LF VT FF CR, FS GS RS US, SPACE, NEL and NBSP. *)
Definition is_space (c : ascii) : bool :=
  let n := code c in
  ((9 <=? n) && (n <=? 13) || (28 <=? n) && (n <=? 32)
   || (n =? 133) || (n =? 160))%N.

(** The line boundaries of [str.splitlines] below 256:
    LF VT FF CR, FS GS RS and NEL. *)
Definition is_linebreak (c : ascii) : bool :=
  let n := code c in
  ((10 <=? n) && (n <=? 13) || (28 <=? n) && (n <=? 30) || (n =? 133))%N.

Definition is_char (x c : ascii) : bool := Ascii.eqb c x.

Fixpoint lstrip_with (p : ascii -> bool) (s : str) : str :=
  match s with
  | [] => []
  | c :: s' => if p c then lstrip_with p s' else s
  end.

Definition rstrip_with (p : ascii -> bool) (s : str) : str :=
  rev (lstrip_with p (rev s)).

Definition strip_with (p : ascii -> bool) (s : str) : str :=
  rstrip_with p (lstrip_with p s).

(** [s.strip()], [s.strip("/")] and [s.rstrip("/")]. *)
Definition strip (s : str) : str := strip_with is_space s.
Definition strip_char (x : ascii) (s : str) : str := strip_with (is_char x) s.
Definition rstrip_char (x : ascii) (s : str) : str := rstrip_with (is_char x) s.

(** Truth value of a string: non-empty. *)
Definition truthy (s : str) : bool :=
  match s with [] => false | _ => true end.

(** [sep.join(parts)]. *)
Fixpoint join (sep : str) (parts : list str) : str :=
  match parts with
  | [] => []
  | [p] => p
  | p :: ps => p ++ sep ++ join sep ps
  end.

(** [s.splitlines()]: cut at every line boundary, CR LF counting as one,
    boundaries dropped, no empty last line. *)
Fixpoint splitlines (s : str) : list str :=
  match s with
  | [] => []
  | c :: s' =>
      if is_linebreak c then
        match s' with
        | d :: s'' =>
            if ((code c =? 13) && (code d =? 10))%N
            then [] :: splitlines s''
            else [] :: splitlines s'
        | [] => [[]]
        end
      else
        match splitlines s' with
        | [] => [[c]]
        | l :: ls => (c :: l) :: ls
        end
  end.

Fixpoint startswith (p s : str) : bool :=
  match p, s with
  | [], _ => true
  | _ :: _, [] => false
  | a :: p', b :: s' => Ascii.eqb a b && startswith p' s'
  end.

(** [sub in s]. *)
Fixpoint contains (sub s : str) : bool :=
  startswith sub s ||
  match s with
  | [] => false
  | _ :: s' => contains sub s'
  end.

Definition cons_first (c : ascii) (parts : list str) : list str :=
  match parts with
  | [] => [[c]]
  | p :: ps => (c :: p) :: ps
  end.

(** [s.split(sep)] for a non-empty [sep] (Python raises [ValueError] on an
    empty one; the script passes a constant).  The scan goes left to right
    and matches do not overlap: [skip] counts the characters of a matched
    separator still to be passed over. *)
Fixpoint split_skip (sep : str) (skip : nat) (s : str) : list str :=
  match s with
  | [] => [[]]
  | c :: s' =>
      match skip with
      | S k => split_skip sep k s'
      | O =>
          if startswith sep s
          then [] :: split_skip sep (length sep - 1) s'
          else cons_first c (split_skip sep 0 s')
      end
  end.

Definition split (sep s : str) : list str := split_skip sep 0 s.

(** [parts[-1]] of a list known to be non-empty. *)
Definition last_item (parts : list str) : str := List.last parts [].

(** [l[:n]] for any integer [n]: a negative bound counts from the end. *)
Definition slice_to {A} (n : Z) (l : list A) : list A :=
  if (0 <=? n)%Z then firstn (Z.to_nat n) l
  else firstn (length l - Z.to_nat (- n)) l.

(** [str(n)] for a non-negative integer. *)
Definition str_of_nat (n : nat) : str :=
  lit (NilEmpty.string_of_uint (Nat.to_uint n)).

(** [s.lower()]: the capital letters below 256 are A-Z and the accented
    ones from 192 to 222, the multiplication sign 215 apart. *)
Definition lower_char (c : ascii) : ascii :=
  let n := code c in
  if ((65 <=? n) && (n <=? 90)
      || (192 <=? n) && (n <=? 222) && negb (n =? 215))%N
  then ascii_of_N (n + 32) else c.

Definition lower (s : str) : str := map lower_char s.

End Py.

(** The order [sorted] uses on strings: lexicographic by code point. *)
Definition str_le (a b : str) : Prop :=
  String.le (string_of_list_ascii a) (string_of_list_ascii b).

Global Instance str_le_dec : RelDecision str_le.
Proof. intros a b. unfold str_le. apply _. Defined.

Global Instance str_le_total : Total str_le.
Proof. intros a b. unfold str_le. apply total, _. Qed.

Definition sorted (l : list str) : list str := merge_sort str_le l.

Definition LF : ascii := "010"%char.
Definition CR : ascii := "013"%char.
Definition nl : str := [LF].

(** ** BeautifulSoup's tree

    What the script uses of a parsed document: the tree of tags, strings
    and comments, [decompose], [get_text] and [find_all]. *)

Module Bs4.

#[local] Set Warnings "-register-all".

Inductive node : Type :=
| NavigableString (s : str)
| Comment (s : str)
| Tag (name : str) (attrs : gmap str str) (contents : list node).

(** The children of the [BeautifulSoup] object. *)
Definition soup : Type := list node.

Definition name_in (name : str) (names : list str) : bool :=
  bool_decide (name ∈ names).

(** [for tag in soup(names): tag.decompose()]: every tag with one of the
    names leaves the tree, with all it contains. *)
Fixpoint decompose_node (names : list str) (n : node) : list node :=
  match n with
  | Tag name attrs contents =>
      if name_in name names then []
      else [Tag name attrs (flat_map (decompose_node names) contents)]
  | _ => [n]
  end.

Definition decompose_all (names : list str) (s : soup) : soup :=
  flat_map (decompose_node names) s.

(** The strings [get_text] visits, in document order; comments are not
    among them. *)
Fixpoint all_strings (n : node) : list str :=
  match n with
  | NavigableString s => [s]
  | Comment _ => []
  | Tag _ _ contents => flat_map all_strings contents
  end.

(** [soup.get_text(separator=sep, strip=strip)]: with [strip] every string
    is stripped and the empty ones are skipped. *)
Definition get_text (sep : str) (strip : bool) (s : soup) : str :=
  let strings := flat_map all_strings s in
  Py.join sep
    (if strip then List.filter Py.truthy (map Py.strip strings) else strings).

(** [soup.find_all(name, attr=True)], as the list of [tag[attr]] of the
    tags found, in document order. *)
Fixpoint find_all_node (name attr : str) (n : node) : list str :=
  match n with
  | Tag name' attrs contents =>
      (if bool_decide (name' = name)
       then match attrs !! attr with Some v => [v] | None => [] end
       else [])
      ++ flat_map (find_all_node name attr) contents
  | _ => []
  end.

Definition find_all (name attr : str) (s : soup) : list str :=
  flat_map (find_all_node name attr) s.

End Bs4.

(** ** The libraries behind the script *)

Class Externals : Type := {
  (** [BeautifulSoup(html, "html.parser")] *)
  html_parser : str -> Bs4.soup;
  (** [hashlib.sha256(text.encode("utf-8")).hexdigest()] *)
  sha256_hexdigest : str -> str;
  (** [difflib.unified_diff(a, b, fromfile=.., tofile=.., lineterm=..)],
      as the list of the lines it yields *)
  unified_diff : list str -> list str -> str -> str -> str -> list str;
  (** [urllib.parse.urljoin(base, url)] *)
  urljoin : str -> str -> str;
}.

(** ** The pure components *)

Section Components.
Context {E : Externals}.

Definition normalize_text (html : str) : str :=
  let soup := html_parser html in
  let soup := Bs4.decompose_all [lit "script"; lit "style"; lit "noscript"] soup in
  let text := Bs4.get_text nl true soup in
  let lines := map Py.strip (Py.splitlines text) in
  let lines := List.filter Py.truthy lines in
  Py.join nl lines.

Definition stable_hash (text : str) : str := sha256_hexdigest text.

Definition truncation_marker : str := "... (diff truncated) ...".

Definition default_max_lines : Z := 2000.

(** The list [lines] of [make_diff] at its [return]. *)
Definition make_diff_lines (old new : str) (max_lines : Z) : list str :=
  let lines :=
    unified_diff (Py.splitlines old) (Py.splitlines new)
      "previous" "current" "" in
  if (Z.of_nat (length lines) >? max_lines)%Z
  then Py.slice_to max_lines lines ++ [truncation_marker]
  else lines.

Definition make_diff (old new : str) (max_lines : Z) : str :=
  Py.join nl (make_diff_lines old new max_lines).

Definition listing_prefix : str := "/en/apartments/".

(** One turn of the loop of [extract_listings]. *)
Definition visit_link (base_url : str) (links : gset str) (a_href : str)
  : gset str :=
  let href := Py.strip a_href in
  let abs_url := urljoin base_url href in
  if Py.contains listing_prefix abs_url then
    if Py.contains "?" abs_url then links
    else
      let tail := Py.last_item (Py.split listing_prefix abs_url) in
      if Py.truthy tail && Py.truthy (Py.strip_char "/" tail)
      then {[ Py.rstrip_char "/" abs_url ]} ∪ links
      else links
  else links.

Definition extract_listings (html base_url : str) : gset str :=
  let soup := html_parser html in
  foldl (visit_link base_url) ∅ (Bs4.find_all "a" "href" soup).

End Components.

(** ** The world a run lives in *)

(** A path that exists holds a file that can be read as UTF-8 text or one
    on which [open] or [read] raises. *)
Inductive file : Type :=
| Readable (data : str)
| Unreadable.

(** What became of one call to a notifier channel: the message went out,
    the channel was not configured (nothing leaves the machine), or the
    attempt failed. *)
Inductive outcome : Type := Delivered | Skipped | Failed.

Inductive event : Type :=
| Stdout (line : str)
| Stderr (line : str)
| Telegram (message : str) (o : outcome)
| Email (subject body : str) (o : outcome).

Inductive exn : Type :=
| HTTPError
| SMTPException
| ValueError
| OSError.

Definition exn_text (e : exn) : str :=
  match e with
  | HTTPError => "HTTPError"
  | SMTPException => "SMTPException"
  | ValueError => "invalid literal for int() with base 10"
  | OSError => "OSError"
  end.

Record world : Type := {
  (** [os.environ], after [load_dotenv] *)
  environ : gmap str str;
  (** [os.getcwd()] *)
  cwd : str;
  (** the files that exist, by path *)
  files : gmap str file;
  (** [requests.get(url).text] when the request and [raise_for_status]
      succeed, [None] when one of them raises *)
  http_get : str -> option str;
  (** whether a POST to the Telegram bot API succeeds *)
  telegram_up : bool;
  (** whether an SMTP session (connect, STARTTLS, login, sendmail) succeeds *)
  smtp_up : bool;
  (** [datetime.now(timezone.utc).strftime("%Y-%m-%d %H:%M:%S %Z")] *)
  utc_now : str;
  (** what the run has printed and sent so far, oldest first *)
  trace : list event;
}.

Definition with_files (fs : gmap str file) (w : world) : world :=
  {| environ := environ w; cwd := cwd w; files := fs;
     http_get := http_get w; telegram_up := telegram_up w;
     smtp_up := smtp_up w; utc_now := utc_now w; trace := trace w |}.

Definition with_trace (t : list event) (w : world) : world :=
  {| environ := environ w; cwd := cwd w; files := files w;
     http_get := http_get w; telegram_up := telegram_up w;
     smtp_up := smtp_up w; utc_now := utc_now w; trace := t |}.

(** ** State and exceptions *)

Inductive result (A : Type) : Type :=
| Return (a : A)
| Raise (e : exn).
Arguments Return {A} a.
Arguments Raise {A} e.

Definition M (A : Type) : Type := world -> result A * world.

Global Instance M_ret : MRet M := λ A a w, (Return a, w).

Global Instance M_bind : MBind M := λ A B f m w,
  match m w with
  | (Return a, w') => f a w'
  | (Raise e, w') => (Raise e, w')
  end.

Definition raise {A} (e : exn) : M A := λ w, (Raise e, w).

(** [try: body  except Exception as e: handler(e)] *)
Definition try_except {A} (body : M A) (handler : exn -> M A) : M A := λ w,
  match body w with
  | (Return a, w') => (Return a, w')
  | (Raise e, w') => handler e w'
  end.

Definition ask {A} (f : world -> A) : M A := λ w, (Return (f w), w).

Definition emit (e : event) : M unit := λ w,
  (Return tt, with_trace (trace w ++ [e]) w).

Definition print (line : str) : M unit := emit (Stdout line).
Definition print_err (line : str) : M unit := emit (Stderr line).

Definition when (b : bool) (m : M unit) : M unit :=
  if b then m else mret tt.

(** The statements of a [try] body run in order over the local variables
    [L]; when one raises, the variables keep what was assigned before. *)
Fixpoint run_steps {L} (steps : list (L -> M L)) (locals : L)
  : world -> (L * option exn) * world := λ w,
  match steps with
  | [] => ((locals, None), w)
  | step :: rest =>
      match step locals w with
      | (Return locals', w') => run_steps rest locals' w'
      | (Raise e, w') => ((locals, Some e), w')
      end
  end.

(** ** What the script asks of the operating system *)

Module Os.

Definition getenv (name : str) : M (option str) :=
  ask (λ w, environ w !! name).

Definition getenv_or (name fallback : str) : M str :=
  ask (λ w, default fallback (environ w !! name)).

Definition getcwd : M str := ask cwd.

(** [os.path.join(a, b)] on POSIX. *)
Definition path_join (a b : str) : str :=
  if Py.startswith "/" b then b
  else match a with
       | [] => b
       | _ => if Py.startswith "/" (rev a) then a ++ b else a ++ lit "/" ++ b
       end.

Definition path_exists (path : str) : M bool :=
  ask (λ w, match files w !! path with Some _ => true | None => false end).

(** Reading in text mode turns CR LF and a lone CR into LF. *)
Fixpoint universal_newlines (s : str) : str :=
  match s with
  | [] => []
  | c :: s' =>
      if Ascii.eqb c CR then
        LF :: match s' with
              | d :: s'' =>
                  if Ascii.eqb d LF then universal_newlines s''
                  else universal_newlines s'
              | [] => []
              end
      else c :: universal_newlines s'
  end.

(** [with open(path, "r", encoding="utf-8") as f: f.read()] *)
Definition read_text (path : str) : M str := λ w,
  match files w !! path with
  | Some (Readable data) => (Return (universal_newlines data), w)
  | Some Unreadable => (Raise OSError, w)
  | None => (Raise OSError, w)
  end.

(** The lines a text file yields when iterated: each ends with its LF,
    but for a last line without one. *)
Fixpoint iter_lines (s : str) : list str :=
  match s with
  | [] => []
  | c :: s' =>
      if Ascii.eqb c LF then [c] :: iter_lines s'
      else Py.cons_first c (iter_lines s')
  end.

(** [os.makedirs(path, exist_ok=True)]: a directory is created at [path]
    and at each missing directory above it.  The world records what can be
    opened, and the script opens nothing but the three files it keeps below
    that directory, so the call leaves the world as it is.  It is taken to
    succeed: an [OSError] from it (a regular file in the way, a read-only
    disk, an empty path) is not part of the model. *)
Definition makedirs (path : str) : M unit := mret tt.

(** [with open(path, "w", encoding="utf-8") as f: f.write(data)]: the file
    is created or replaced (LF is written as it is on POSIX).  Like
    [makedirs], the write is taken to succeed: an [OSError] from [open] or
    [write] is not part of the model. *)
Definition write_text (path data : str) : M unit := λ w,
  (Return tt, with_files (<[path := Readable data]> (files w)) w).

End Os.

(** [int(s)] in base 10: surrounding whitespace, an optional sign, digits
    with single underscores between them; [None] stands for [ValueError].
    The whitespace [int] skips is narrower than what [str.strip] removes:
    TAB, LF, VT, FF, CR and the space, and of the code points above 127 the
    two that count as whitespace (U+0085, U+00A0); the separators U+001C to
    U+001F are not skipped.  A literal with more digits than the
    interpreter's limit on integer strings (4300 unless configured
    otherwise) is refused with [ValueError] as well. *)
Definition is_int_space (c : ascii) : bool :=
  let n := code c in
  (((9 <=? n) && (n <=? 13)) || (n =? 32) || (n =? 133) || (n =? 160))%N.

Definition digit_value (c : ascii) : option Z :=
  let n := code c in
  if ((48 <=? n) && (n <=? 57))%N then Some (Z.of_N n - 48)%Z else None.

Fixpoint int_digits (acc : Z) (after_digit : bool) (s : str) : option Z :=
  match s with
  | [] => if after_digit then Some acc else None
  | c :: s' =>
      match digit_value c with
      | Some d => int_digits (10 * acc + d)%Z true s'
      | None =>
          if Ascii.eqb c "_" && after_digit
          then int_digits acc false s'
          else None
      end
  end.

Definition int_max_str_digits : nat := 4300.

Definition is_decimal_digit (c : ascii) : bool :=
  match digit_value c with Some _ => true | None => false end.

Definition py_int (s : str) : option Z :=
  let literal := Py.strip_with is_int_space s in
  let '(negative, digits) :=
    match literal with
    | c :: s' =>
        if Ascii.eqb c "-" then (true, s')
        else if Ascii.eqb c "+" then (false, s')
        else (false, literal)
    | [] => (false, [])
    end in
  if (int_max_str_digits <? length (List.filter is_decimal_digit digits))%nat
  then None
  else (if negative then Z.opp else id) <$> int_digits 0 false digits.

Definition opt_truthy (o : option str) : bool :=
  match o with Some s => Py.truthy s | None => false end.

(** ** The script *)

Section Script.
Context {E : Externals}.

Definition DEFAULT_URL : str :=
  lit "https://www.psoas.fi/en/apartments/?_sfm_htyyppi=k-%2C-p-%2C-y"
  ++ lit "&_sfm_huoneistojen_tilanne=vapaa_ja_vapautumassa&_sfm_koko=7+84"
  ++ lit "&_sfm_vuokra=161+791&_sfm_huonelkm=1+7".

Definition env_bool (name : str) (fallback : bool) : M bool :=
  val ← Os.getenv name;
  match val with
  | None => mret fallback
  | Some v =>
      mret (bool_decide
              (Py.lower (Py.strip v) ∈ [lit "1"; lit "true"; lit "yes"; lit "on"]))
  end.

Definition fetch (url : str) : M str := λ w,
  match http_get w url with
  | Some text => (Return text, w)
  | None => (Raise HTTPError, w)
  end.

(** The [with smtplib.SMTP(...)] block: the mail goes out, or one of the
    steps of the session raises. *)
Definition smtp_session (subject body : str) : M unit := λ w,
  if smtp_up w
  then emit (Email subject body Delivered) w
  else (emit (Email subject body Failed);; raise SMTPException) w.

Definition send_email (subject body : str) : M unit :=
  smtp_server ← Os.getenv_or "SMTP_SERVER" "smtp.gmail.com";
  port_text ← Os.getenv_or "SMTP_PORT" "587";
  match py_int port_text with
  | None => emit (Email subject body Failed);; raise ValueError
  | Some smtp_port =>
      smtp_user ← Os.getenv "SMTP_USERNAME";
      smtp_pass ← Os.getenv "SMTP_PASSWORD";
      email_from ← Os.getenv_or "EMAIL_FROM" (default [] smtp_user);
      email_to ← Os.getenv_or "RECIPIENT_EMAIL" "litecointele@gmail.com";
      if negb (opt_truthy smtp_user && opt_truthy smtp_pass
               && Py.truthy email_from && Py.truthy email_to)
      then
        print_err "[WARN] Missing SMTP configuration; email not sent.";;
        emit (Email subject body Skipped)
      else smtp_session subject body
  end.

(** [requests.post(api_url, json=payload, timeout=30)] followed by
    [raise_for_status]. *)
Definition telegram_post (message : str) : M unit := λ w,
  if telegram_up w
  then emit (Telegram message Delivered) w
  else (emit (Telegram message Failed);; raise HTTPError) w.

Definition send_telegram (message : str) : M unit :=
  token ← Os.getenv "TELEGRAM_BOT_TOKEN";
  chat_id ← Os.getenv "TELEGRAM_CHAT_ID";
  if negb (opt_truthy token && opt_truthy chat_id)
  then
    print_err "[WARN] Telegram not configured; skipping Telegram send.";;
    emit (Telegram message Skipped)
  else
    try_except (telegram_post message)
      (λ e, print_err (lit "[WARN] Failed to send Telegram message: "
                       ++ exn_text e)).

(** The local variables of [read_state]. *)
Record state_vars : Type := {
  last_hash : option str;
  last_text : option str;
  last_listings : gset str;
}.

Definition read_state (state_dir : str) : M state_vars := λ w,
  let hash_path := Os.path_join state_dir "last_hash.txt" in
  let text_path := Os.path_join state_dir "last_text.txt" in
  let listings_path := Os.path_join state_dir "last_listings.txt" in
  let vars :=
    {| last_hash := None; last_text := None; last_listings := ∅ |} in
  let body := [
    (λ v : state_vars,
       there ← Os.path_exists hash_path;
       if there : bool then
         data ← Os.read_text hash_path;
         let stripped := Py.strip data in
         mret {| last_hash := if Py.truthy stripped then Some stripped else None;
                 last_text := last_text v;
                 last_listings := last_listings v |}
       else mret v);
    (λ v : state_vars,
       there ← Os.path_exists text_path;
       if there : bool then
         data ← Os.read_text text_path;
         mret {| last_hash := last_hash v;
                 last_text := Some data;
                 last_listings := last_listings v |}
       else mret v);
    (λ v : state_vars,
       there ← Os.path_exists listings_path;
       if there : bool then
         data ← Os.read_text listings_path;
         mret {| last_hash := last_hash v;
                 last_text := last_text v;
                 last_listings :=
                   list_to_set
                     (map Py.strip
                        (List.filter (λ ln, Py.truthy (Py.strip ln))
                           (Os.iter_lines data))) |}
       else mret v) ] in
  match run_steps body vars w with
  | ((v, None), w') => (Return v, w')
  | ((v, Some e), w') =>
      (print_err (lit "[WARN] Failed to read state: " ++ exn_text e);;
       mret v) w'
  end.

(** The state directory is created when it is missing, then the files are
    written in this order; a listing set is written one URL per line, in
    ascending order.  The directory and the writes are taken to succeed
    (see [Os.makedirs] and [Os.write_text]): what a run does after a
    failed write is not part of the model. *)
Definition write_state (state_dir h text : str) (listings : option (gset str))
  : M unit :=
  Os.makedirs state_dir;;
  Os.write_text (Os.path_join state_dir "last_hash.txt") h;;
  Os.write_text (Os.path_join state_dir "last_text.txt") text;;
  match listings with
  | Some urls =>
      Os.write_text (Os.path_join state_dir "last_listings.txt")
        (concat (map (λ url, url ++ nl) (sorted (elements urls))))
  | None => mret tt
  end.

Definition baseline_subject : str := "PSOAS page baseline saved (first run)".

Definition baseline_body (ts url : str) : str :=
  lit "Time: " ++ ts ++ nl ++ lit "URL: " ++ url ++ nl ++ nl
  ++ lit "Baseline content saved. Notifications will be sent on changes.".

Definition new_listings_subject : str := "New PSOAS listings available".

Definition new_listings_message (ts url : str) (new_listings : list str) : str :=
  let header :=
    lit "New PSOAS listings detected (" ++ Py.str_of_nat (length new_listings)
    ++ lit ") @ " ++ ts in
  let sample := Py.join nl (firstn 10 new_listings) in
  let sample :=
    if bool_decide (10 < length new_listings)
    then sample ++ nl ++ lit "... and "
         ++ Py.str_of_nat (length new_listings - 10) ++ lit " more"
    else sample in
  header ++ nl ++ lit "URL: " ++ url ++ nl ++ nl ++ sample.

Definition change_subject (ts : str) : str := lit "PSOAS page changed @ " ++ ts.

Definition change_body (url old_hash h diff_text : str) : str :=
  lit "URL: " ++ url ++ nl ++ nl ++ lit "Change detected. Hash: " ++ old_hash
  ++ lit " -> " ++ h ++ nl ++ nl ++ lit "Diff:" ++ nl ++ diff_text ++ nl.

Definition run_once (debug : bool) : M Z :=
  url ← Os.getenv_or "URL" DEFAULT_URL;
  here ← Os.getcwd;
  state_dir ← Os.getenv_or "STATE_DIR" (Os.path_join here ".state");
  notify_first ← env_bool "NOTIFY_ON_FIRST_RUN" false;
  when debug (print (lit "[INFO] Fetching: " ++ url));;
  html ← fetch url;
  let text := normalize_text html in
  let h := stable_hash text in
  let listings := extract_listings html url in
  st ← read_state state_dir;
  match last_hash st with
  | None =>
      write_state state_dir h text (Some listings);;
      did_notify ←
        (if notify_first : bool then
           ts ← ask utc_now;
           let body := baseline_body ts url in
           send_telegram (baseline_subject ++ nl ++ body);;
           send_email baseline_subject body;;
           mret true
         else mret false);
      when debug
        (print (lit "[INFO] Baseline saved."
                ++ (if did_notify : bool then lit " Notified first run." else [])));;
      mret 0%Z
  | Some old_hash =>
      let new_listings := sorted (elements (listings ∖ last_listings st)) in
      match new_listings with
      | _ :: _ =>
          ts ← ask utc_now;
          let message := new_listings_message ts url new_listings in
          when debug
            (print "[INFO] New listings detected, sending Telegram/email...");;
          send_telegram message;;
          send_email new_listings_subject message;;
          write_state state_dir h text (Some listings);;
          mret 0%Z
      | [] =>
          if bool_decide (h ≠ old_hash) then
            ts ← ask utc_now;
            let subject := change_subject ts in
            let diff_text :=
              make_diff (default [] (last_text st)) text default_max_lines in
            let body := change_body url old_hash h diff_text in
            when debug (print "[INFO] Change detected, sending email...");;
            send_telegram (subject ++ nl ++ body);;
            send_email subject body;;
            write_state state_dir h text (Some listings);;
            mret 0%Z
          else
            when debug (print "[INFO] No change detected.");;
            mret 0%Z
      end
  end.

(** [main], from the parsed arguments to the exit status of the process.
    [sys.exit(return_code)] ends it with the value [run_once] returned; an
    exception of [run_once] is reported and ends it with status 1, also
    when the report itself raises. *)
Definition main (debug : bool) (w : world) : Z * world :=
  match run_once debug w with
  | (Return return_code, w') => (return_code, w')
  | (Raise e, w') =>
      let report : M unit :=
        print_err (lit "[ERROR] " ++ exn_text e);;
        by_email ← env_bool "EMAIL_ON_ERROR" false;
        when by_email (send_email "PSOAS watcher error" (exn_text e));;
        by_telegram ← env_bool "TELEGRAM_ON_ERROR" true;
        when by_telegram
          (send_telegram (lit "PSOAS watcher error: " ++ exn_text e)) in
      (1%Z, (report w').2)
  end.

End Script.

(** ** Reference libraries

    Executable stand-ins for the four library functions, to run the script
    on concrete pages.  [html_parser] follows BeautifulSoup over Python's
    [html.parser] on a fragment of HTML: text, start, end and self-closing
    tags with quoted or bare attribute values, comments, declarations,
    the raw text of [script] and [style], void elements, and the character
    references [lt], [gt], [amp], [quot], [apos] and [nbsp] (another name
    stays as BeautifulSoup leaves an unknown one; numeric references stay
    as text).  The other three are deliberately simple: a 32-bit checksum
    for the digest, a whole-file hunk for the diff, and [urljoin] without
    dot segments. *)

Module Reference.

Inductive token : Type :=
| TData (s : str)
| TStart (name : str) (attrs : list (str * str)) (closed : bool)
| TEnd (name : str)
| TComment (s : str).

Definition is_alpha (c : ascii) : bool :=
  let n := code c in
  ((65 <=? n) && (n <=? 90) || (97 <=? n) && (n <=? 122))%N.

Definition is_digit (c : ascii) : bool :=
  let n := code c in ((48 <=? n) && (n <=? 57))%N.

(** The whitespace of HTML: space, TAB, LF, FF, CR. *)
Definition is_html_space (c : ascii) : bool :=
  let n := code c in
  ((n =? 32) || (n =? 9) || (n =? 10) || (n =? 12) || (n =? 13))%N.

Definition is_markup (c : ascii) : bool := Ascii.eqb c "<" || Ascii.eqb c "&".

Fixpoint span (p : ascii -> bool) (s : str) : str * str :=
  match s with
  | [] => ([], [])
  | c :: s' =>
      if p c then let '(a, b) := span p s' in (c :: a, b) else ([], s)
  end.

(** The text before and after the first occurrence of [sub]. *)
Fixpoint find_sub (sub s : str) : option (str * str) :=
  if Py.startswith sub s then Some ([], skipn (length sub) s)
  else match s with
       | [] => None
       | c :: s' =>
           match find_sub sub s' with
           | Some (a, b) => Some (c :: a, b)
           | None => None
           end
       end.

Definition entity (name : str) : str :=
  if bool_decide (name = lit "lt") then "<"
  else if bool_decide (name = lit "gt") then ">"
  else if bool_decide (name = lit "amp") then "&"
  else if bool_decide (name = lit "quot") then [ascii_of_N 34]
  else if bool_decide (name = lit "apos") then "'"
  else if bool_decide (name = lit "nbsp") then [ascii_of_N 160]
  else lit "&" ++ name.

Definition is_entity_char (c : ascii) : bool :=
  is_alpha c || is_digit c || Ascii.eqb c "-" || Ascii.eqb c ".".

(** A character reference at the head of [s], which follows an ampersand:
    its text and what follows it. *)
Definition reference_at (s : str) : option (str * str) :=
  match s with
  | c :: _ =>
      if is_alpha c then
        match span is_entity_char s with
        | (name, t :: after) =>
            Some (entity name, if Ascii.eqb t ";" then after else t :: after)
        | (_, []) => None
        end
      else None
  | [] => None
  end.

Fixpoint unescape (fuel : nat) (s : str) : str :=
  match fuel with
  | O => s
  | S fuel' =>
      match s with
      | [] => []
      | c :: s' =>
          if Ascii.eqb c "&" then
            match reference_at s' with
            | Some (text, after) => text ++ unescape fuel' after
            | None => c :: unescape fuel' s'
            end
          else c :: unescape fuel' s'
      end
  end.

Definition is_attr_name_char (c : ascii) : bool :=
  negb (is_html_space c || Ascii.eqb c "/" || Ascii.eqb c "=" || Ascii.eqb c ">").

Definition is_bare_value_char (c : ascii) : bool :=
  negb (is_html_space c || Ascii.eqb c ">").

Definition is_quote (c : ascii) : bool :=
  Ascii.eqb c (ascii_of_N 34) || Ascii.eqb c "'".

(** The attributes of a start tag up to its [>]: the attributes, whether
    the tag closes itself, and the text after the tag; [None] when the tag
    has no end. *)
Fixpoint parse_attrs (fuel : nat) (s : str) (acc : list (str * str))
  : option (list (str * str) * bool * str) :=
  match fuel with
  | O => None
  | S fuel' =>
      match s with
      | [] => None
      | c :: s' =>
          if Ascii.eqb c ">" then Some (rev acc, false, s')
          else if Ascii.eqb c "/" then
            match s' with
            | d :: s'' =>
                if Ascii.eqb d ">" then Some (rev acc, true, s'')
                else parse_attrs fuel' s' acc
            | [] => None
            end
          else if is_html_space c then parse_attrs fuel' s' acc
          else
            let '(name_rest, after_name) := span is_attr_name_char s' in
            let name := Py.lower (c :: name_rest) in
            let '(_, after_ws) := span is_html_space after_name in
            match after_ws with
            | e :: _ =>
                if Ascii.eqb e "=" then
                  let '(_, after_eq) := span (λ x, Ascii.eqb x "=") after_ws in
                  let '(_, at_value) := span is_html_space after_eq in
                  match at_value with
                  | q :: quoted =>
                      if is_quote q then
                        match find_sub [q] quoted with
                        | Some (value, rest) =>
                            parse_attrs fuel' rest
                              ((name, unescape (length value) value) :: acc)
                        | None => None
                        end
                      else
                        let '(value, rest) := span is_bare_value_char at_value in
                        parse_attrs fuel' rest
                          ((name, unescape (length value) value) :: acc)
                  | [] => None
                  end
                else parse_attrs fuel' after_ws ((name, []) :: acc)
            | [] => None
            end
      end
  end.

Definition is_tag_name_char (c : ascii) : bool :=
  negb (is_html_space c || Ascii.eqb c "/" || Ascii.eqb c ">").

Definition is_raw_text_element (name : str) : bool :=
  bool_decide (name ∈ [lit "script"; lit "style"]).

Fixpoint tokenize (fuel : nat) (s : str) : list token :=
  match fuel with
  | O => []
  | S fuel' =>
      match s with
      | [] => []
      | c :: rest =>
          if Ascii.eqb c "<" then
            match rest with
            | d :: rest' =>
                if is_alpha d then
                  let '(raw_name, after_name) := span is_tag_name_char rest in
                  let name := Py.lower raw_name in
                  match parse_attrs (S (length after_name)) after_name [] with
                  | Some (attrs, closed, after) =>
                      if is_raw_text_element name && negb closed then
                        match find_sub (lit "</" ++ name) (Py.lower after) with
                        | Some (raw, _) =>
                            TStart name attrs closed
                            :: TData (firstn (length raw) after)
                            :: tokenize fuel' (skipn (length raw) after)
                        | None => [TStart name attrs closed; TData after]
                        end
                      else TStart name attrs closed :: tokenize fuel' after
                  | None => [TData s]
                  end
                else if Ascii.eqb d "/" then
                  match find_sub ">" rest' with
                  | Some (inner, after) =>
                      TEnd (Py.lower (fst (span is_tag_name_char (Py.strip inner))))
                      :: tokenize fuel' after
                  | None => [TData s]
                  end
                else if Ascii.eqb d "!" then
                  if Py.startswith "--" rest' then
                    match find_sub "-->" (skipn 2 rest') with
                    | Some (body, after) => TComment body :: tokenize fuel' after
                    | None => [TData s]
                    end
                  else
                    match find_sub ">" rest' with
                    | Some (body, after) => TComment body :: tokenize fuel' after
                    | None => [TData s]
                    end
                else if Ascii.eqb d "?" then
                  match find_sub ">" rest' with
                  | Some (body, after) => TComment body :: tokenize fuel' after
                  | None => [TData s]
                  end
                else TData "<" :: tokenize fuel' rest
            | [] => [TData "<"]
            end
          else if Ascii.eqb c "&" then
            match reference_at rest with
            | Some (text, after) => TData text :: tokenize fuel' after
            | None => TData "&" :: tokenize fuel' rest
            end
          else
            let '(text, after) := span (λ x, negb (is_markup x)) s in
            TData text :: tokenize fuel' after
      end
  end.

(** An open tag and the children it has so far, newest first. *)
Record frame : Type := {
  f_name : str;
  f_attrs : gmap str str;
  f_kids : list Bs4.node;
}.

Record builder : Type := {
  open_tags : list frame;
  top_kids : list Bs4.node;
  current_data : str;
}.

Definition add_node (n : Bs4.node) (b : builder) : builder :=
  match open_tags b with
  | f :: fs =>
      {| open_tags :=
           {| f_name := f_name f; f_attrs := f_attrs f;
              f_kids := n :: f_kids f |} :: fs;
         top_kids := top_kids b; current_data := current_data b |}
  | [] =>
      {| open_tags := []; top_kids := n :: top_kids b;
         current_data := current_data b |}
  end.

Definition keeps_whitespace (fs : list frame) : bool :=
  existsb (λ f, bool_decide (f_name f ∈ [lit "pre"; lit "textarea"])) fs.

(** A string of HTML whitespace alone shrinks to one LF or one space. *)
Definition collapse (fs : list frame) (data : str) : str :=
  if forallb is_html_space data && negb (keeps_whitespace fs) then
    if existsb (λ c, Ascii.eqb c LF) data then [LF] else " "
  else data.

(** The data collected since the last tag becomes one string. *)
Definition end_data (b : builder) : builder :=
  match current_data b with
  | [] => b
  | data =>
      add_node (Bs4.NavigableString (collapse (open_tags b) data))
        {| open_tags := open_tags b; top_kids := top_kids b;
           current_data := [] |}
  end.

(** Close the open tags down to the nearest one called [name]; [carry] is
    the tag just closed, to be added to the next one. *)
Fixpoint close_until (name : str) (carry : list Bs4.node) (fs : list frame)
  : option (Bs4.node * list frame) :=
  match fs with
  | [] => None
  | f :: fs' =>
      let t := Bs4.Tag (f_name f) (f_attrs f) (rev (carry ++ f_kids f)) in
      if bool_decide (f_name f = name) then Some (t, fs')
      else close_until name [t] fs'
  end.

Fixpoint close_all (carry : list Bs4.node) (fs : list frame) : list Bs4.node :=
  match fs with
  | [] => carry
  | f :: fs' =>
      close_all [Bs4.Tag (f_name f) (f_attrs f) (rev (carry ++ f_kids f))] fs'
  end.

Definition void_elements : list str :=
  [lit "area"; lit "base"; lit "br"; lit "col"; lit "embed"; lit "hr";
   lit "img"; lit "input"; lit "keygen"; lit "link"; lit "menuitem";
   lit "meta"; lit "param"; lit "source"; lit "track"; lit "wbr"].

Definition attr_dict (attrs : list (str * str)) : gmap str str :=
  foldl (λ d kv, <[kv.1 := kv.2]> d) ∅ attrs.

Definition feed (b : builder) (t : token) : builder :=
  match t with
  | TData s =>
      {| open_tags := open_tags b; top_kids := top_kids b;
         current_data := current_data b ++ s |}
  | TComment s => add_node (Bs4.Comment s) (end_data b)
  | TStart name attrs closed =>
      let b := end_data b in
      if closed || bool_decide (name ∈ void_elements)
      then add_node (Bs4.Tag name (attr_dict attrs) []) b
      else
        {| open_tags :=
             {| f_name := name; f_attrs := attr_dict attrs; f_kids := [] |}
             :: open_tags b;
           top_kids := top_kids b; current_data := [] |}
  | TEnd name =>
      let b := end_data b in
      match close_until name [] (open_tags b) with
      | Some (t, fs) =>
          add_node t
            {| open_tags := fs; top_kids := top_kids b; current_data := [] |}
      | None => b
      end
  end.

Definition build (tokens : list token) : Bs4.soup :=
  let b := end_data (foldl feed
                       {| open_tags := []; top_kids := []; current_data := [] |}
                       tokens) in
  rev (close_all [] (open_tags b) ++ top_kids b).

Definition parse (html : str) : Bs4.soup := build (tokenize (length html) html).

(** A 32-bit polynomial checksum, eight hexadecimal digits. *)
Definition checksum (s : str) : N :=
  fold_left (λ acc c, (acc * 31 + code c) mod 4294967296)%N s 7%N.

Definition hex_digit (n : N) : ascii :=
  if (n <? 10)%N then ascii_of_N (48 + n) else ascii_of_N (87 + n).

Fixpoint hex_digits (count : nat) (n : N) (acc : str) : str :=
  match count with
  | O => acc
  | S count' => hex_digits count' (n / 16)%N (hex_digit (n mod 16)%N :: acc)
  end.

Definition digest (s : str) : str := hex_digits 8 (checksum s) [].

(** One hunk that replaces the whole of [a] by [b]; nothing when equal. *)
Definition whole_file_diff (a b : list str) (fromfile tofile lineterm : str)
  : list str :=
  if bool_decide (a = b) then []
  else
    [lit "--- " ++ fromfile ++ lineterm; lit "+++ " ++ tofile ++ lineterm;
     lit "@@ -1," ++ Py.str_of_nat (length a) ++ lit " +1,"
     ++ Py.str_of_nat (length b) ++ lit " @@" ++ lineterm]
    ++ map (λ l, lit "-" ++ l) a ++ map (λ l, lit "+" ++ l) b.

Definition is_authority_char (c : ascii) : bool :=
  negb (Ascii.eqb c "/" || Ascii.eqb c "?" || Ascii.eqb c "#").

(** [urljoin] for an absolute [url], one that starts at the root, and one
    relative to the directory of [base]. *)
Definition join_url (base url : str) : str :=
  match url with
  | [] => base
  | _ =>
      if Py.contains "://" url then url
      else
        match find_sub "://" base with
        | Some (scheme, after) =>
            let '(authority, path_etc) := span is_authority_char after in
            let origin := scheme ++ lit "://" ++ authority in
            if Py.startswith "/" url then origin ++ url
            else
              let '(path, _) :=
                span (λ c, negb (Ascii.eqb c "?" || Ascii.eqb c "#")) path_etc in
              let dir := rev (Py.lstrip_with (λ c, negb (Ascii.eqb c "/")) (rev path)) in
              origin ++ (match dir with [] => lit "/" | _ => dir end) ++ url
        | None => url
        end
  end.

Definition libraries : Externals := {|
  html_parser := parse;
  sha256_hexdigest := digest;
  unified_diff := whole_file_diff;
  urljoin := join_url;
|}.

End Reference.

(** ** Vocabulary of the statements *)




(** Text in which nothing can start a tag or a character reference. *)
Definition markup_free (s : str) : Prop := ("<"%char ∉ s) ∧ ("&"%char ∉ s).

(** A line without a line boundary inside. *)
Definition no_break (l : str) : Prop :=
  Forall (λ c, Py.is_linebreak c = false) l.

(** What the statements about re-parsing text ask of the parser: the empty
    document has no nodes, and text without markup that is not padded with
    whitespace comes back as one string. *)
Definition parses_plain_text (E : Externals) : Prop :=
  html_parser [] = []
  ∧ ∀ s, s ≠ [] → Py.strip s = s → markup_free s →
         html_parser s = [Bs4.NavigableString s].

(** [path] names the directory [dir] or a directory above it: trailing
    slashes apart, [dir] is [path], or [path] followed by a slash and
    more.  These are the directories [os.makedirs(dir)] may create. *)
Definition at_or_above (path dir : str) : Prop :=
  ∃ rest,
    Py.rstrip_char "/" dir = Py.rstrip_char "/" path ++ rest
    ∧ (rest = [] ∨ Py.startswith "/" rest = true).

(** The three artifacts of the state directory. *)
Definition hash_path (state_dir : str) : str :=
  Os.path_join state_dir "last_hash.txt".
Definition text_path (state_dir : str) : str :=
  Os.path_join state_dir "last_text.txt".
Definition listings_path (state_dir : str) : str :=
  Os.path_join state_dir "last_listings.txt".

(** The warning [read_state] prints when a read raises. *)
Definition read_warning : event :=
  Stderr (lit "[WARN] Failed to read state: " ++ exn_text OSError).

(** The values [run_once] takes from the environment. *)
Definition target_url (w : world) : str :=
  default DEFAULT_URL (environ w !! lit "URL").

Definition state_dir_of (w : world) : str :=
  default (Os.path_join (cwd w) ".state") (environ w !! lit "STATE_DIR").

Definition env_flag (name : str) (fallback : bool) (w : world) : bool :=
  match environ w !! name with
  | None => fallback
  | Some v =>
      bool_decide
        (Py.lower (Py.strip v) ∈ [lit "1"; lit "true"; lit "yes"; lit "on"])
  end.

(** Whether each channel has the settings without which it is skipped. *)
Definition telegram_configured (w : world) : bool :=
  opt_truthy (environ w !! lit "TELEGRAM_BOT_TOKEN")
  && opt_truthy (environ w !! lit "TELEGRAM_CHAT_ID").

Definition smtp_configured (w : world) : bool :=
  opt_truthy (environ w !! lit "SMTP_USERNAME")
  && opt_truthy (environ w !! lit "SMTP_PASSWORD")
  && Py.truthy (default (default [] (environ w !! lit "SMTP_USERNAME"))
                  (environ w !! lit "EMAIL_FROM"))
  && Py.truthy (default (lit "litecointele@gmail.com")
                  (environ w !! lit "RECIPIENT_EMAIL")).

(** Whether [SMTP_PORT] (587 when unset) reads as an integer. *)
Definition smtp_port_ok (w : world) : bool :=
  match py_int (default (lit "587") (environ w !! lit "SMTP_PORT")) with
  | Some _ => true
  | None => false
  end.

(** What [read_state] returns in a world. *)
Definition stored_state (w : world) : state_vars :=
  match (read_state (state_dir_of w) w).1 with
  | Return v => v
  | Raise _ => {| last_hash := None; last_text := None; last_listings := ∅ |}
  end.

(** The files after [write_state] has saved a snapshot. *)
Definition snapshot_files (state_dir h text : str) (listings : gset str)
  (fs : gmap str file) : gmap str file :=
  <[listings_path state_dir :=
      Readable (concat (map (λ url, url ++ nl) (sorted (elements listings))))]>
    (<[text_path state_dir := Readable text]>
       (<[hash_path state_dir := Readable h]> fs)).

(** The calls to the notifier channels among the events of a trace. *)
Definition is_notification (e : event) : bool :=
  match e with
  | Telegram _ _ | Email _ _ _ => true
  | Stdout _ | Stderr _ => false
  end.

Definition notifications (t : list event) : list event :=
  List.filter is_notification t.

(** What one call to each channel adds to the trace, and how the call to
    the e-mail channel ends. *)
Definition telegram_events (message : str) (w : world) : list event :=
  if negb (telegram_configured w)
  then [Stderr "[WARN] Telegram not configured; skipping Telegram send.";
        Telegram message Skipped]
  else if telegram_up w then [Telegram message Delivered]
  else [Telegram message Failed;
        Stderr (lit "[WARN] Failed to send Telegram message: "
                ++ exn_text HTTPError)].

Definition email_events (subject body : str) (w : world) : list event :=
  if negb (smtp_port_ok w) then [Email subject body Failed]
  else if negb (smtp_configured w)
  then [Stderr "[WARN] Missing SMTP configuration; email not sent.";
        Email subject body Skipped]
  else if smtp_up w then [Email subject body Delivered]
  else [Email subject body Failed].

Definition email_result (w : world) : result unit :=
  if negb (smtp_port_ok w) then Raise ValueError
  else if smtp_configured w && negb (smtp_up w) then Raise SMTPException
  else Return tt.

Definition telegram_outcome (w : world) : outcome :=
  if negb (telegram_configured w) then Skipped
  else if telegram_up w then Delivered else Failed.

Definition email_outcome (w : world) : outcome :=
  if negb (smtp_port_ok w) then Failed
  else if negb (smtp_configured w) then Skipped
  else if smtp_up w then Delivered else Failed.

(** How a branch of [run_once] that has called [send_email] goes on:
    it returns 0 unless the call raised. *)
Definition after_email (w : world) : result Z :=
  match email_result w with
  | Return _ => Return 0%Z
  | Raise e => Raise e
  end.

(** Text that comes back from a state file as it was written: not empty,
    not padded with whitespace, on one line. *)
Definition survives_state_file (s : str) : Prop :=
  s ≠ [] ∧ Py.strip s = s ∧ (CR ∉ s) ∧ (LF ∉ s).

(** The same world with the Telegram service up or down. *)
Definition with_telegram_up (up : bool) (w : world) : world :=
  {| environ := environ w; cwd := cwd w; files := files w;
     http_get := http_get w; telegram_up := up;
     smtp_up := smtp_up w; utc_now := utc_now w; trace := trace w |}.

(** The same world with another environment. *)
Definition with_environ (env : gmap str str) (w : world) : world :=
  {| environ := env; cwd := cwd w; files := files w;
     http_get := http_get w; telegram_up := telegram_up w;
     smtp_up := smtp_up w; utc_now := utc_now w; trace := trace w |}.

(** ** Example worlds

    Concrete pages and worlds on which the script is run with the
    reference libraries. *)

Module Example.

Definition libs : Externals := Reference.libraries.

Definition site : str := "https://www.psoas.fi/en/apartments/".

Definition page_one : str :=
  lit "<html><head><title>Flats</title><script>var n = 1;</script></head>"
  ++ lit "<body><h1>Free flats</h1>"
  ++ lit "<a href='/en/apartments/alpha-1/'>Alpha 1</a>"
  ++ lit "<a href='/en/apartments/?page=2'>next</a></body></html>".

(** [page_one] with one more listing. *)
Definition page_two : str :=
  lit "<html><head><title>Flats</title><script>var n = 2;</script></head>"
  ++ lit "<body><h1>Free flats</h1>"
  ++ lit "<a href='/en/apartments/alpha-1/'>Alpha 1</a>"
  ++ lit "<a href='/en/apartments/beta-2/'>Beta 2</a>"
  ++ lit "<a href='/en/apartments/?page=2'>next</a></body></html>".

(** [page_one] with another heading and the same listings. *)
Definition page_three : str :=
  lit "<html><head><title>Flats</title></head>"
  ++ lit "<body><h1>Free flats in May</h1>"
  ++ lit "<a href='/en/apartments/alpha-1/'>Alpha 1</a>"
  ++ lit "<a href='/en/apartments/?page=2'>next</a></body></html>".

(** A page whose listing link ends in a space before its last slash. *)
Definition page_spaced : str :=
  lit "<html><body><a href='/en/apartments/gamma 3 /'>Gamma</a></body></html>".

Definition settings (notify_first : bool) : gmap str str :=
  list_to_map
    [(lit "URL", site);
     (lit "STATE_DIR", lit "/var/psoas");
     (lit "NOTIFY_ON_FIRST_RUN", if notify_first then lit "true" else lit "no");
     (lit "TELEGRAM_BOT_TOKEN", lit "123:abc");
     (lit "TELEGRAM_CHAT_ID", lit "42");
     (lit "SMTP_USERNAME", lit "watcher@example.org");
     (lit "SMTP_PASSWORD", lit "secret")].

(** A world that serves [page] at the watched address. *)
Definition world_with (page : str) (fs : gmap str file)
  (notify_first smtp : bool) : world :=
  {| environ := settings notify_first;
     cwd := "/home/watcher";
     files := fs;
     http_get := λ url, if bool_decide (url = site) then Some page else None;
     telegram_up := true;
     smtp_up := smtp;
     utc_now := "2024-05-01 12:00:00 UTC";
     trace := [] |}.

(** The files a run leaves after saving the snapshot of [page]. *)
Definition saved (page : str) : gmap str file :=
  snapshot_files "/var/psoas"
    (stable_hash (E := libs) (normalize_text (E := libs) page))
    (normalize_text (E := libs) page)
    (extract_listings (E := libs) page site) ∅.

End Example.

(** * Properties *)

(** ** Stripping *)

Module PyFacts.
Import Py.

Lemma lstrip_with_split p s :
  ∃ pre, s = pre ++ lstrip_with p s ∧ Forall (λ c, p c = true) pre.
Proof.
  induction s as [|c s IH]; simpl.
  - exists []. split; [done | constructor].
  - destruct (p c) eqn:Hc.
    + destruct IH as (pre & Heq & Hpre). exists (c :: pre). split.
      * simpl. by rewrite <- Heq.
      * by constructor.
    + exists []. split; [done | constructor].
Qed.

Lemma lstrip_with_head p s c t : lstrip_with p s = c :: t → p c = false.
Proof.
  induction s as [|d s IH]; simpl; [done |].
  destruct (p d) eqn:Hd; [done |]. intros [= -> _]. done.
Qed.

Lemma lstrip_with_app p x y :
  lstrip_with p x ≠ [] → lstrip_with p (x ++ y) = lstrip_with p x ++ y.
Proof.
  induction x as [|c x IH]; simpl; [done |].
  destruct (p c); [done |]. done.
Qed.

Lemma lstrip_with_id p c t : p c = false → lstrip_with p (c :: t) = c :: t.
Proof. intros H. simpl. by rewrite H. Qed.

Lemma lstrip_with_all p s :
  Forall (λ c, p c = true) s → lstrip_with p s = [].
Proof. induction 1 as [|c s Hc _ IH]; simpl; [done |]. by rewrite Hc. Qed.

Lemma rstrip_with_split p s :
  ∃ post, s = rstrip_with p s ++ post ∧ Forall (λ c, p c = true) post.
Proof.
  unfold rstrip_with.
  destruct (lstrip_with_split p (rev s)) as (pre & Heq & Hpre).
  exists (rev pre). split.
  - rewrite <- rev_app_distr, <- Heq. by rewrite rev_involutive.
  - by apply Forall_rev.
Qed.

Lemma rstrip_with_last p s v c : rstrip_with p s = v ++ [c] → p c = false.
Proof.
  unfold rstrip_with. intros H.
  apply (f_equal (@rev ascii)) in H.
  rewrite rev_involutive, rev_app_distr in H. simpl in H.
  by apply lstrip_with_head in H.
Qed.


Lemma rstrip_with_id p v c : p c = false → rstrip_with p (v ++ [c]) = v ++ [c].
Proof.
  intros H. unfold rstrip_with. rewrite rev_app_distr. simpl.
  rewrite H. simpl. by rewrite rev_involutive.
Qed.



(** A string with a character that [rstrip] keeps is not stripped to
    nothing. *)
Lemma rstrip_with_keeps p s c :
  c ∈ s → p c = false → rstrip_with p s ≠ [].
Proof.
  intros Hin Hc Hnil.
  destruct (rstrip_with_split p s) as (post & Heq & Hpost).
  rewrite Hnil in Heq. simpl in Heq. subst post.
  rewrite Forall_forall in Hpost. specialize (Hpost c Hin). congruence.
Qed.

Lemma is_char_true x c : is_char x c = true ↔ c = x.
Proof. unfold is_char. apply Ascii.eqb_eq. Qed.


End PyFacts.

(** ** Searching and splitting *)

Module SplitFacts.
Import Py PyFacts.



Lemma split_skip_nonempty sep k s : split_skip sep k s ≠ [].
Proof.
  revert k. induction s as [|c s IH]; intros k; simpl; [done |].
  destruct k; [| apply IH].
  destruct (startswith sep (c :: s)); [done |].
  unfold cons_first. by destruct (split_skip sep 0 s).
Qed.







End SplitFacts.

(** ** The listing extractor *)

Section ExtractListings.
Context {E : Externals}.
Import Py PyFacts SplitFacts.









End ExtractListings.

(** ** The differ *)

Section MakeDiff.
Context {E : Externals}.
Import Py.

(** The lines of the library's diff of the two texts. *)
Lemma make_diff_lines_short old new max_lines :
  let d := unified_diff (splitlines old) (splitlines new)
             "previous" "current" "" in
  (Z.of_nat (length d) ≤ max_lines)%Z →
  make_diff_lines old new max_lines = d.
Proof.
  intros d Hd. unfold make_diff_lines. fold d.
  destruct (Z.gtb_spec (Z.of_nat (length d)) max_lines); [lia | done].
Qed.

Lemma make_diff_lines_long old new max_lines :
  let d := unified_diff (splitlines old) (splitlines new)
             "previous" "current" "" in
  (max_lines < Z.of_nat (length d))%Z →
  make_diff_lines old new max_lines
  = slice_to max_lines d ++ [truncation_marker].
Proof.
  intros d Hd. unfold make_diff_lines. fold d.
  destruct (Z.gtb_spec (Z.of_nat (length d)) max_lines); [done | lia].
Qed.

Lemma slice_to_nonneg {A} (n : Z) (l : list A) :
  (0 ≤ n)%Z → slice_to n l = firstn (Z.to_nat n) l.
Proof.
  intros Hn. unfold slice_to. destruct (Z.leb_spec 0 n); [done | lia].
Qed.

(** C8. The differ returns the lines of the unified diff of the two texts
    joined by line feeds.  When the diff has more lines than the maximum,
    the first [max_lines] of them are kept and the marker line
    "... (diff truncated) ..." follows as the last line; otherwise the diff
    is returned whole, and the marker is no line of the output unless the
    diff itself has it as a line. *)
Theorem make_diff_truncates (old new : str) (max_lines : Z) :
  let d := unified_diff (splitlines old) (splitlines new)
             "previous" "current" "" in
  (0 ≤ max_lines)%Z →
  make_diff old new max_lines = join nl (make_diff_lines old new max_lines)
  ∧ ((max_lines < Z.of_nat (length d))%Z →
       make_diff_lines old new max_lines
       = firstn (Z.to_nat max_lines) d ++ [truncation_marker]
       ∧ Z.of_nat (length (make_diff_lines old new max_lines))
         = (max_lines + 1)%Z
       ∧ List.last (make_diff_lines old new max_lines) [] = truncation_marker)
  ∧ ((Z.of_nat (length d) ≤ max_lines)%Z →
       make_diff_lines old new max_lines = d)
  ∧ (truncation_marker ∉ d →
       (truncation_marker ∈ make_diff_lines old new max_lines
        ↔ (max_lines < Z.of_nat (length d))%Z)).
Proof.
  intros d Hmax.
  assert ((max_lines < Z.of_nat (length d))%Z →
          make_diff_lines old new max_lines
          = firstn (Z.to_nat max_lines) d ++ [truncation_marker]) as Hlong.
  { intros Hd. subst d. rewrite make_diff_lines_long by done.
    by rewrite slice_to_nonneg. }
  split; [done |]. split; [| split].
  - intros Hd. rewrite (Hlong Hd). split; [done |]. split.
    + rewrite length_app, length_firstn. simpl. lia.
    + apply last_last.
  - apply make_diff_lines_short.
  - intros Hclean. split.
    + intros Hin. destruct (Z.lt_ge_cases max_lines (Z.of_nat (length d)))
        as [Hd | Hd]; [done |].
      subst d. rewrite make_diff_lines_short in Hin by done. done.
    + intros Hd. rewrite (Hlong Hd). apply elem_of_app. right. by left.
Qed.

End MakeDiff.

(** ** Lines *)

Module LineFacts.
Import Py PyFacts.

Lemma lstrip_with_idem p s : lstrip_with p (lstrip_with p s) = lstrip_with p s.
Proof.
  induction s as [|c s IH]; simpl; [done |].
  destruct (p c) eqn:Hc; [done |]. simpl. by rewrite Hc.
Qed.

Lemma rstrip_with_idem p s : rstrip_with p (rstrip_with p s) = rstrip_with p s.
Proof. unfold rstrip_with. by rewrite rev_involutive, lstrip_with_idem. Qed.

Lemma strip_with_lstrip p s : lstrip_with p (strip_with p s) = strip_with p s.
Proof.
  unfold strip_with.
  destruct (lstrip_with p s) as [|c t] eqn:Hl; [done |].
  pose proof (lstrip_with_head _ _ _ _ Hl) as Hc.
  destruct (rstrip_with_split p (c :: t)) as (post & Heq & _).
  destruct (rstrip_with p (c :: t)) as [|d r] eqn:Hr.
  - exfalso. apply (rstrip_with_keeps p (c :: t) c); [by left | done | done].
  - simpl in Heq. injection Heq as <- _. by apply lstrip_with_id.
Qed.

Lemma strip_with_rstrip p s : rstrip_with p (strip_with p s) = strip_with p s.
Proof. unfold strip_with. apply rstrip_with_idem. Qed.

Lemma strip_with_idem p s : strip_with p (strip_with p s) = strip_with p s.
Proof.
  unfold strip_with at 1. by rewrite strip_with_lstrip, strip_with_rstrip.
Qed.

Lemma strip_with_Forall (P : ascii → Prop) p s :
  Forall P s → Forall P (strip_with p s).
Proof.
  intros H. unfold strip_with.
  destruct (lstrip_with_split p s) as (pre & Heq & _).
  destruct (rstrip_with_split p (lstrip_with p s)) as (post & Heq' & _).
  rewrite Heq, Heq' in H.
  apply Forall_app in H as [_ H]. by apply Forall_app in H as [H _].
Qed.

(** A stripped string neither starts nor ends with a character that
    [strip] removes, and conversely. *)
Lemma stripped_ends p s :
  s ≠ [] → strip_with p s = s →
  (∃ c t, s = c :: t ∧ p c = false) ∧ (∃ v d, s = v ++ [d] ∧ p d = false).
Proof.
  intros Hne Hs. split.
  - destruct s as [|c t]; [done |]. exists c, t. split; [done |].
    pose proof (strip_with_lstrip p (c :: t)) as H. rewrite Hs in H.
    by apply lstrip_with_head in H.
  - destruct s as [|d v _] using rev_ind; [done |]. exists v, d. split; [done |].
    pose proof (strip_with_rstrip p (v ++ [d])) as H. rewrite Hs in H.
    by apply rstrip_with_last in H.
Qed.

Lemma strip_with_ends p s :
  (∃ c t, s = c :: t ∧ p c = false) → (∃ v d, s = v ++ [d] ∧ p d = false) →
  strip_with p s = s.
Proof.
  intros (c & t & -> & Hc) (v & d & Heq & Hd).
  unfold strip_with. rewrite lstrip_with_id by done.
  rewrite Heq. by apply rstrip_with_id.
Qed.

Lemma join_singleton sep l : join sep [l] = l.
Proof. done. Qed.

Lemma join_cons sep l l' ls :
  join sep (l :: l' :: ls) = l ++ sep ++ join sep (l' :: ls).
Proof. done. Qed.

Lemma join_ends_with_last sep ls l :
  ∃ pre, join sep (ls ++ [l]) = pre ++ l.
Proof.
  induction ls as [|a ls IH].
  - by exists [].
  - destruct IH as [pre Hpre]. destruct ls as [|b ls].
    + exists (a ++ sep). simpl. by rewrite <- app_assoc.
    + exists (a ++ sep ++ pre).
      change ((a :: b :: ls) ++ [l]) with (a :: b :: (ls ++ [l])).
      rewrite join_cons. change (b :: ls ++ [l]) with ((b :: ls) ++ [l]).
      rewrite Hpre. by rewrite <- !app_assoc.
Qed.

Lemma join_starts_with_first sep l ls :
  ∃ post, join sep (l :: ls) = l ++ post.
Proof.
  destruct ls as [|l' ls].
  - exists []. simpl. by rewrite app_nil_r.
  - by exists (sep ++ join sep (l' :: ls)).
Qed.

(** Joined stripped lines make a stripped text. *)
Lemma strip_with_join p sep ls :
  Forall (λ l, l ≠ [] ∧ strip_with p l = l) ls →
  strip_with p (join sep ls) = join sep ls.
Proof.
  intros Hls. destruct ls as [|l ls]; [done |].
  apply strip_with_ends.
  - apply Forall_cons in Hls as [[Hne Hl] _].
    destruct (stripped_ends p l Hne Hl) as [(c & t & -> & Hc) _].
    destruct (join_starts_with_first sep (c :: t) ls) as [post Hpost].
    exists c, (t ++ post). by rewrite Hpost.
  - destruct (exists_last (l := l :: ls) ltac:(done)) as (init & z & Heq).
    rewrite Heq in Hls |- *.
    apply Forall_app in Hls as [_ Hz]. apply Forall_cons in Hz as [[Hne Hz] _].
    destruct (stripped_ends p z Hne Hz) as [_ (v & d & -> & Hd)].
    destruct (join_ends_with_last sep init (v ++ [d])) as [pre Hpre].
    exists (pre ++ v), d. by rewrite Hpre, app_assoc.
Qed.

Lemma splitlines_line l :
  l ≠ [] → no_break l → splitlines l = [l].
Proof.
  induction l as [|c l IH]; [done |]. intros _ Hnb.
  apply Forall_cons in Hnb as [Hc Hl]. cbn [splitlines]. rewrite Hc.
  destruct l as [|d l]; [done |]. by rewrite IH.
Qed.

Lemma splitlines_line_feed l s :
  no_break l → splitlines (l ++ LF :: s) = l :: splitlines s.
Proof.
  induction 1 as [|c l Hc _ IH].
  - simpl. by destruct s.
  - change ((c :: l) ++ LF :: s) with (c :: (l ++ LF :: s)).
    cbn [splitlines]. by rewrite Hc, IH.
Qed.

Lemma splitlines_join ls :
  Forall (λ l, l ≠ [] ∧ no_break l) ls → splitlines (join nl ls) = ls.
Proof.
  induction ls as [|l ls IH]; [done |]. intros Hls.
  apply Forall_cons in Hls as [[Hne Hl] Hls].
  destruct ls as [|l' ls].
  - by apply splitlines_line.
  - rewrite join_cons.
    change (l ++ nl ++ join nl (l' :: ls)) with (l ++ LF :: join nl (l' :: ls)).
    rewrite splitlines_line_feed by done. by rewrite IH.
Qed.

Lemma splitlines_no_break n : ∀ s,
  length s ≤ n → Forall no_break (splitlines s).
Proof.
  induction n as [|n IH]; intros s Hlen.
  - destruct s; [constructor | simpl in Hlen; lia].
  - destruct s as [|c s]; [constructor |]. simpl in Hlen.
    cbn [splitlines]. destruct (is_linebreak c) eqn:Hc.
    + destruct s as [|d s].
      * repeat constructor.
      * simpl in Hlen.
        destruct ((code c =? 13)%N && (code d =? 10)%N);
          (constructor; [constructor | apply IH; simpl; lia]).
    + pose proof (IH s ltac:(lia)) as Hs.
      destruct (splitlines s) as [|l ls].
      * repeat constructor. done.
      * apply Forall_cons in Hs as [Hl Hls].
        constructor; [by constructor | done].
Qed.

Lemma filter_truthy_fixed (ls : list str) :
  Forall (λ l, l ≠ []) ls → List.filter truthy ls = ls.
Proof.
  induction 1 as [|l ls Hl _ IH]; [done |].
  simpl. destruct l; [done |]. simpl. by rewrite IH.
Qed.

Lemma map_fixed {A} (f : A → A) (ls : list A) :
  Forall (λ l, f l = l) ls → map f ls = ls.
Proof. induction 1 as [|l ls Hl _ IH]; [done |]. simpl. by rewrite Hl, IH. Qed.

(** The lines the normalizer keeps: stripped, not empty, free of line
    boundaries. *)
Lemma cleaned_lines text :
  Forall (λ l, l ≠ [] ∧ strip l = l ∧ no_break l)
    (List.filter truthy (map strip (splitlines text))).
Proof.
  pose proof (splitlines_no_break (length text) text (le_n _)) as Hnb.
  induction (splitlines text) as [|l ls IH]; [constructor |].
  apply Forall_cons in Hnb as [Hl Hls]. simpl.
  destruct (truthy (strip l)) eqn:Ht; [| by apply IH].
  constructor; [| by apply IH]. split; [| split].
  - by destruct (strip l).
  - apply strip_with_idem.
  - by apply strip_with_Forall.
Qed.

End LineFacts.

(** ** The normalizer *)

Section NormalizeText.
Context {E : Externals}.
Import Py PyFacts LineFacts.

(** The normalizer returns stripped, non-empty lines joined by line
    feeds. *)
Lemma normalize_text_lines html :
  ∃ lines,
    normalize_text html = join nl lines
    ∧ Forall (λ l, l ≠ [] ∧ strip l = l ∧ no_break l) lines.
Proof.
  unfold normalize_text. eexists. split; [done |]. apply cleaned_lines.
Qed.

(** Cleaning lines that are clean already changes nothing. *)
Lemma reclean_lines lines :
  Forall (λ l, l ≠ [] ∧ strip l = l ∧ no_break l) lines →
  List.filter truthy (map strip (splitlines (join nl lines))) = lines.
Proof.
  intros H. rewrite splitlines_join.
  - rewrite map_fixed.
    + apply filter_truthy_fixed. eapply Forall_impl; [done |]. by intros ? (? & ? & ?).
    + eapply Forall_impl; [done |]. by intros ? (? & ? & ?).
  - eapply Forall_impl; [done |]. by intros ? (? & ? & ?).
Qed.

(** C9, as amended. With a parser that returns text without markup as one
    string, normalizing the normalizer's output returns it unchanged
    whenever that output contains neither "<" nor "&". *)
Theorem normalize_text_idempotent_without_markup (html : str) :
  parses_plain_text E →
  markup_free (normalize_text html) →
  normalize_text (normalize_text html) = normalize_text html.
Proof.
  intros [Hempty Hplain] Hfree.
  destruct (normalize_text_lines html) as (lines & Heq & Hlines).
  rewrite Heq in Hfree |- *.
  assert (strip (join nl lines) = join nl lines) as Hstripped.
  { apply strip_with_join. eapply Forall_impl; [done |]. by intros ? (? & ? & ?). }
  destruct lines as [|l lines].
  { unfold normalize_text. simpl join. by rewrite Hempty. }
  assert (join nl (l :: lines) ≠ []) as Hne.
  { apply Forall_cons in Hlines as [(Hl & _) _].
    destruct (join_starts_with_first nl l lines) as [post ->].
    by destruct l. }
  unfold normalize_text at 1.
  rewrite (Hplain _ Hne Hstripped Hfree).
  unfold Bs4.decompose_all, Bs4.get_text.
  cbn [Bs4.decompose_node flat_map app Bs4.all_strings map].
  rewrite Hstripped.
  destruct (join nl (l :: lines)) as [|c t] eqn:Hj; [done |].
  cbn [List.filter truthy join]. rewrite <- Hj.
  by rewrite reclean_lines.
Qed.

End NormalizeText.

(** ** The reference parser on plain text *)

Module ReferenceFacts.
Import Py PyFacts LineFacts Reference.

Lemma html_space_is_space c : is_html_space c = true → is_space c = true.
Proof.
  destruct c as [[] [] [] [] [] [] [] []]; vm_compute; congruence.
Qed.

Lemma span_all p s :
  Forall (λ c, p c = true) s → span p s = (s, []).
Proof.
  induction 1 as [|c s Hc _ IH]; [done |]. simpl. by rewrite Hc, IH.
Qed.

Lemma tokenize_nil fuel : tokenize fuel [] = [].
Proof. by destruct fuel. Qed.

Lemma not_markup s :
  markup_free s → Forall (λ c, negb (is_markup c) = true) s.
Proof.
  intros [Hlt Hamp]. apply Forall_forall. intros c Hc.
  unfold is_markup. apply negb_true_iff, orb_false_iff.
  split; apply Ascii.eqb_neq; intros ->; done.
Qed.

Lemma tokenize_plain c s :
  markup_free (c :: s) →
  tokenize (length (c :: s)) (c :: s) = [TData (c :: s)].
Proof.
  intros Hfree. pose proof (not_markup _ Hfree) as Hall.
  cbn [length tokenize].
  assert (Ascii.eqb c "<" = false ∧ Ascii.eqb c "&" = false) as [-> ->].
  { apply Forall_cons in Hall as [Hc _].
    unfold is_markup in Hc. apply negb_true_iff, orb_false_iff in Hc. done. }
  rewrite (span_all _ (c :: s)) by done.
  by rewrite tokenize_nil.
Qed.

Lemma parse_plain : parses_plain_text Reference.libraries.
Proof.
  split; [done |]. intros s Hne Hstrip Hfree. cbn [html_parser libraries].
  destruct s as [|c s]; [done |]. unfold parse.
  rewrite tokenize_plain by done.
  destruct (stripped_ends is_space (c :: s) Hne Hstrip)
    as [(c' & t & [= <- <-] & Hc) _].
  assert (is_html_space c = false) as Hhc.
  { destruct (is_html_space c) eqn:Hh; [| done].
    apply html_space_is_space in Hh. congruence. }
  unfold build. cbn [foldl feed current_data open_tags top_kids app].
  unfold end_data. cbn [current_data open_tags top_kids].
  unfold collapse. cbn [forallb]. rewrite Hhc. done.
Qed.

End ReferenceFacts.

(** C9, counterexample. The page [&lt;b&gt;x&lt;/b&gt;] shows the text
    [<b>x</b>]; normalizing that text once more reads it as markup and
    leaves [x]. *)
Lemma normalize_text_not_idempotent :
  normalize_text (E := Reference.libraries)
    (normalize_text (E := Reference.libraries) "&lt;b&gt;x&lt;/b&gt;")
  ≠ normalize_text (E := Reference.libraries) "&lt;b&gt;x&lt;/b&gt;".
Proof. vm_compute. discriminate. Qed.


Lemma normalize_text_idempotent_witness :
  normalize_text (E := Reference.libraries)
    (normalize_text (E := Reference.libraries) "<p>Hello</p> <p>World</p>")
  = normalize_text (E := Reference.libraries) "<p>Hello</p> <p>World</p>".
Proof.
  apply normalize_text_idempotent_without_markup.
  - apply ReferenceFacts.parse_plain.
  - split; apply (bool_decide_unpack _); vm_compute; exact I.
Defined.

(** ** The state store *)

Ltac run_monad :=
  unfold Os.path_exists, Os.read_text, Os.getenv, Os.getenv_or, Os.getcwd,
    print_err, print, when;
  unfold mbind, M_bind, mret, M_ret, ask, raise, emit;
  cbn beta iota delta
      [run_steps environ cwd files http_get telegram_up smtp_up utc_now trace
       with_trace with_files last_hash last_text last_listings fst snd].

Section ReadState.

(** C6. Reading the state never raises. A missing file leaves its value
    absent (fingerprint, text) or empty (listing set); a file that cannot be
    read is reported on standard error and its value stays absent or empty;
    no file is touched. *)
Theorem read_state_never_raises (state_dir : str) (w : world) :
  ∃ v w',
    read_state state_dir w = (Return v, w')
    ∧ files w' = files w
    ∧ (files w !! hash_path state_dir = None → last_hash v = None)
    ∧ (files w !! text_path state_dir = None → last_text v = None)
    ∧ (files w !! listings_path state_dir = None → last_listings v = ∅)
    ∧ (files w !! hash_path state_dir = Some Unreadable →
         last_hash v = None ∧ trace w' = trace w ++ [read_warning])
    ∧ (files w !! text_path state_dir = Some Unreadable →
         last_text v = None ∧ trace w' = trace w ++ [read_warning])
    ∧ (files w !! listings_path state_dir = Some Unreadable →
         last_listings v = ∅ ∧ trace w' = trace w ++ [read_warning]).
Proof.
  unfold read_state, hash_path, text_path, listings_path, read_warning.
  set (hp := Os.path_join state_dir "last_hash.txt").
  set (tp := Os.path_join state_dir "last_text.txt").
  set (lp := Os.path_join state_dir "last_listings.txt").
  run_monad.
  destruct (files w !! hp) as [[dh|]|] eqn:Hh;
    destruct (files w !! tp) as [[dt|]|] eqn:Ht;
    destruct (files w !! lp) as [[dl|]|] eqn:Hl;
    run_monad; rewrite ?Hh, ?Ht, ?Hl; run_monad;
    eexists _, _; (split; [reflexivity |]); cbn;
    repeat split; try done.
Qed.

End ReadState.

(** ** The effects of the building blocks *)

Section Effects.
Context {E : Externals}.

Lemma with_trace_id w : with_trace (trace w) w = w.
Proof. by destruct w. Qed.

Lemma env_bool_spec name fallback w :
  env_bool name fallback w = (Return (env_flag name fallback w), w).
Proof.
  unfold env_bool, env_flag. run_monad. by destruct (environ w !! name).
Qed.

Lemma send_telegram_spec message w :
  send_telegram message w
  = (Return tt, with_trace (trace w ++ telegram_events message w) w).
Proof.
  unfold send_telegram, telegram_events, telegram_configured,
    try_except, telegram_post.
  run_monad.
  destruct (opt_truthy (environ w !! lit "TELEGRAM_BOT_TOKEN")
            && opt_truthy (environ w !! lit "TELEGRAM_CHAT_ID")); cbn.
  - destruct (telegram_up w); run_monad; by rewrite <- ?app_assoc.
  - by rewrite <- app_assoc.
Qed.

Lemma send_email_spec subject body w :
  send_email subject body w
  = (email_result w, with_trace (trace w ++ email_events subject body w) w).
Proof.
  unfold send_email, email_events, email_result, smtp_port_ok, smtp_configured,
    smtp_session.
  run_monad.
  destruct (py_int _) as [port|]; cbn; [| done].
  match goal with |- context [negb ?c] => destruct c end; cbn.
  - by destruct (smtp_up w).
  - by rewrite <- app_assoc.
Qed.

Lemma write_state_spec state_dir h text listings w :
  write_state state_dir h text (Some listings) w
  = (Return tt,
     with_files (snapshot_files state_dir h text listings (files w)) w).
Proof. done. Qed.

(** [read_state] returns the stored state whatever the trace holds, and
    adds at most its warning to it. *)
Lemma read_state_spec state_dir w :
  ∃ v extra,
    notifications extra = []
    ∧ ∀ t, read_state state_dir (with_trace t w)
           = (Return v, with_trace (t ++ extra) w).
Proof.
  unfold read_state.
  set (hp := Os.path_join state_dir "last_hash.txt").
  set (tp := Os.path_join state_dir "last_text.txt").
  set (lp := Os.path_join state_dir "last_listings.txt").
  clearbody hp tp lp.
  destruct (files w !! hp) as [[dh|]|] eqn:Hh;
    destruct (files w !! tp) as [[dt|]|] eqn:Ht;
    destruct (files w !! lp) as [[dl|]|] eqn:Hl;
    first [ (eexists _, []; split; [done |]; intros t; rewrite app_nil_r;
             repeat (progress (run_monad; rewrite ?Hh, ?Ht, ?Hl));
             reflexivity)
          | (eexists _, [read_warning]; split; [done |]; intros t;
             repeat (progress (run_monad; rewrite ?Hh, ?Ht, ?Hl));
             reflexivity) ].
Qed.

Lemma read_state_stored w :
  ∃ extra,
    notifications extra = []
    ∧ ∀ t, read_state (state_dir_of w) (with_trace t w)
           = (Return (stored_state w), with_trace (t ++ extra) w).
Proof.
  destruct (read_state_spec (state_dir_of w) w) as (v & extra & Hn & Hr).
  exists extra. split; [done |]. intros t. rewrite Hr. do 2 f_equal.
  unfold stored_state. rewrite <- (with_trace_id w) at 2. by rewrite Hr.
Qed.

Lemma sorted_nil l : sorted l = [] ↔ l = [].
Proof.
  split.
  - intros H. pose proof (merge_sort_Permutation str_le l) as Hp.
    unfold sorted in H. rewrite H in Hp. symmetry in Hp.
    by apply Permutation_nil_r in Hp.
  - intros ->. done.
Qed.

Lemma sorted_elements_nil (s : gset str) : sorted (elements s) = [] ↔ s = ∅.
Proof. rewrite sorted_nil, elements_empty_iff. by unfold_leibniz. Qed.

Lemma notifications_app t1 t2 :
  notifications (t1 ++ t2) = notifications t1 ++ notifications t2.
Proof. apply List.filter_app. Qed.

End Effects.

(** ** The branches of a run *)

Section Branches.
Context {E : Externals}.

Lemma notifications_telegram message w :
  notifications (telegram_events message w)
  = [Telegram message (telegram_outcome w)].
Proof.
  unfold telegram_events, telegram_outcome.
  destruct (telegram_configured w), (telegram_up w); done.
Qed.

Lemma notifications_email subject body w :
  notifications (email_events subject body w)
  = [Email subject body (email_outcome w)].
Proof.
  unfold email_events, email_outcome.
  destruct (smtp_port_ok w), (smtp_configured w), (smtp_up w); done.
Qed.

(** The channels look at the environment and the network only. *)
Lemma email_result_with_trace t w :
  email_result (with_trace t w) = email_result w.
Proof. done. Qed.

Lemma email_result_with_files fs w :
  email_result (with_files fs w) = email_result w.
Proof. done. Qed.

Lemma email_events_with_trace s b t w :
  email_events s b (with_trace t w) = email_events s b w.
Proof. done. Qed.

Lemma email_events_with_files s b fs w :
  email_events s b (with_files fs w) = email_events s b w.
Proof. done. Qed.

Lemma telegram_events_with_trace m t w :
  telegram_events m (with_trace t w) = telegram_events m w.
Proof. done. Qed.

Lemma telegram_events_with_files m fs w :
  telegram_events m (with_files fs w) = telegram_events m w.
Proof. done. Qed.

Create Rewrite HintDb world_simpl.
Hint Rewrite email_result_with_trace email_result_with_files
  email_events_with_trace email_events_with_files
  telegram_events_with_trace telegram_events_with_files : world_simpl.

(** From the start of [run_once] to the state read: the page is fetched
    and the stored state is read; the trace grows by lines that are not
    notifications. *)
Ltac to_branch w Hfetch Hread :=
  unfold run_once; run_monad; rewrite env_bool_spec;
  fold (target_url w) (state_dir_of w);
  unfold fetch; run_monad; rewrite ?Hfetch; run_monad;
  rewrite ?Hread; run_monad.

Ltac send_all :=
  repeat (progress
    (run_monad;
     rewrite ?send_telegram_spec, ?send_email_spec, ?write_state_spec;
     autorewrite with world_simpl)).

Ltac tidy_trace Hextra :=
  cbn [trace with_trace with_files];
  rewrite ?notifications_app, ?notifications_telegram, ?notifications_email,
    ?Hextra, ?app_nil_r, <- ?app_assoc;
  reflexivity.

Lemma read_state_here w :
  ∃ extra,
    notifications extra = []
    ∧ (∀ t, read_state (state_dir_of w) (with_trace t w)
            = (Return (stored_state w), with_trace (t ++ extra) w))
    ∧ read_state (state_dir_of w) w
      = (Return (stored_state w), with_trace (trace w ++ extra) w).
Proof.
  destruct (read_state_stored w) as (extra & Hn & Hr).
  exists extra. split; [done |]. split; [done |].
  generalize (Hr (trace w)). by rewrite with_trace_id.
Qed.

(** No stored fingerprint: the snapshot is saved first, then the
    notification goes out if asked for. *)
Lemma run_once_baseline debug w html :
  http_get w (target_url w) = Some html →
  last_hash (stored_state w) = None →
  let text := normalize_text html in
  let saved :=
    snapshot_files (state_dir_of w) (stable_hash text) text
      (extract_listings html (target_url w)) (files w) in
  let body := baseline_body (utc_now w) (target_url w) in
  ∃ t,
    run_once debug w
    = (if env_flag "NOTIFY_ON_FIRST_RUN" false w then after_email w
       else Return 0%Z,
       with_trace t (with_files saved w))
    ∧ notifications t
      = notifications (trace w)
        ++ (if env_flag "NOTIFY_ON_FIRST_RUN" false w
            then [Telegram (baseline_subject ++ nl ++ body) (telegram_outcome w);
                  Email baseline_subject body (email_outcome w)]
            else []).
Proof.
  intros Hfetch Hhash text saved body.
  destruct (read_state_here w) as (extra & Hextra & Hread & Hread0).
  unfold after_email.
  destruct debug; to_branch w Hfetch Hread; rewrite ?Hread0; run_monad;
    rewrite Hhash; send_all;
    destruct (env_flag "NOTIFY_ON_FIRST_RUN" false w); send_all;
    try (destruct (email_result w) as [[]|e]; run_monad);
    (eexists; split; [reflexivity |]); tidy_trace Hextra.
Qed.

(** A stored fingerprint and a listing that was not stored: both channels
    are called with the new listings; the snapshot is saved after them, so
    only if the e-mail call returns. *)
Lemma run_once_new_listings debug w html old_hash :
  http_get w (target_url w) = Some html →
  last_hash (stored_state w) = Some old_hash →
  extract_listings html (target_url w) ∖ last_listings (stored_state w) ≠ ∅ →
  let text := normalize_text html in
  let saved :=
    snapshot_files (state_dir_of w) (stable_hash text) text
      (extract_listings html (target_url w)) (files w) in
  let message :=
    new_listings_message (utc_now w) (target_url w)
      (sorted (elements (extract_listings html (target_url w)
                         ∖ last_listings (stored_state w)))) in
  ∃ t,
    run_once debug w
    = (after_email w,
       with_trace t
         (with_files
            (match email_result w with Return _ => saved | Raise _ => files w end)
            w))
    ∧ notifications t
      = notifications (trace w)
        ++ [Telegram message (telegram_outcome w);
            Email new_listings_subject message (email_outcome w)].
Proof.
  intros Hfetch Hhash Hnew text saved message. subst text saved message.
  destruct (read_state_here w) as (extra & Hextra & Hread & Hread0).
  unfold after_email.
  destruct (sorted _) as [|n ns] eqn:Hsorted.
  { by apply sorted_elements_nil in Hsorted. }
  destruct debug; to_branch w Hfetch Hread; rewrite ?Hread0; run_monad;
    rewrite Hhash, Hsorted; send_all;
    destruct (email_result w) as [[]|e]; run_monad;
    (eexists; split; [reflexivity |]); tidy_trace Hextra.
Qed.

(** A stored fingerprint, no new listing, another fingerprint: both
    channels are called with the diff; the snapshot is saved after them. *)
Lemma run_once_changed debug w html old_hash :
  http_get w (target_url w) = Some html →
  last_hash (stored_state w) = Some old_hash →
  extract_listings html (target_url w) ∖ last_listings (stored_state w) = ∅ →
  stable_hash (normalize_text html) ≠ old_hash →
  let text := normalize_text html in
  let saved :=
    snapshot_files (state_dir_of w) (stable_hash text) text
      (extract_listings html (target_url w)) (files w) in
  let subject := change_subject (utc_now w) in
  let body :=
    change_body (target_url w) old_hash (stable_hash text)
      (make_diff (default [] (last_text (stored_state w))) text
         default_max_lines) in
  ∃ t,
    run_once debug w
    = (after_email w,
       with_trace t
         (with_files
            (match email_result w with Return _ => saved | Raise _ => files w end)
            w))
    ∧ notifications t
      = notifications (trace w)
        ++ [Telegram (subject ++ nl ++ body) (telegram_outcome w);
            Email subject body (email_outcome w)].
Proof.
  intros Hfetch Hhash Hnew Hdiff text saved subject body.
  subst text saved subject body.
  destruct (read_state_here w) as (extra & Hextra & Hread & Hread0).
  unfold after_email.
  apply sorted_elements_nil in Hnew.
  destruct debug; to_branch w Hfetch Hread; rewrite ?Hread0; run_monad;
    rewrite Hhash, Hnew, bool_decide_eq_true_2 by done; send_all;
    destruct (email_result w) as [[]|e]; run_monad;
    (eexists; split; [reflexivity |]); tidy_trace Hextra.
Qed.

(** A stored fingerprint, no new listing, the same fingerprint: nothing is
    sent and nothing is written. *)
Lemma run_once_unchanged debug w html :
  http_get w (target_url w) = Some html →
  last_hash (stored_state w) = Some (stable_hash (normalize_text html)) →
  extract_listings html (target_url w) ∖ last_listings (stored_state w) = ∅ →
  ∃ t,
    run_once debug w = (Return 0%Z, with_trace t w)
    ∧ notifications t = notifications (trace w).
Proof.
  intros Hfetch Hhash Hnew.
  destruct (read_state_here w) as (extra & Hextra & Hread & Hread0).
  apply sorted_elements_nil in Hnew.
  destruct debug; to_branch w Hfetch Hread; rewrite ?Hread0; run_monad;
    rewrite Hhash, Hnew, bool_decide_eq_false_2 by (by intros []); run_monad;
    (eexists; split; [reflexivity |]); tidy_trace Hextra.
Qed.

End Branches.

(** ** What the fingerprint file yields *)

Section StoredHash.
Import Py PyFacts.

Lemma universal_newlines_spaces n : ∀ s,
  length s ≤ n →
  Forall (λ c, is_space c = true) s →
  Forall (λ c, is_space c = true) (Os.universal_newlines s).
Proof.
  induction n as [|n IH]; intros s Hlen Hs.
  - destruct s; [constructor | simpl in Hlen; lia].
  - destruct s as [|c s]; [constructor |]. simpl in Hlen.
    apply Forall_cons in Hs as [Hc Hs]. cbn [Os.universal_newlines].
    destruct (Ascii.eqb c CR).
    + constructor; [done |]. destruct s as [|d s]; [constructor |].
      simpl in Hlen. destruct (Ascii.eqb d LF).
      * apply IH; [lia |]. by apply Forall_cons in Hs as [_ Hs].
      * apply IH; [simpl; lia | done].
    + constructor; [done |]. apply IH; [lia | done].
Qed.

Lemma strip_spaces s : Forall (λ c, is_space c = true) s → strip s = [].
Proof.
  intros Hs. unfold strip, strip_with. by rewrite lstrip_with_all.
Qed.

(** The fingerprint read from a readable file: its text without the
    surrounding whitespace, absent when nothing is left. *)
Lemma stored_hash_readable w data :
  files w !! hash_path (state_dir_of w) = Some (Readable data) →
  last_hash (stored_state w)
  = (let stripped := strip (Os.universal_newlines data) in
     if truthy stripped then Some stripped else None).
Proof.
  unfold stored_state, read_state, hash_path.
  set (hp := Os.path_join (state_dir_of w) "last_hash.txt").
  set (tp := Os.path_join (state_dir_of w) "last_text.txt").
  set (lp := Os.path_join (state_dir_of w) "last_listings.txt").
  clearbody hp tp lp. intros Hh.
  destruct (files w !! tp) as [[dt|]|] eqn:Ht;
    destruct (files w !! lp) as [[dl|]|] eqn:Hl;
    repeat (progress (run_monad; rewrite ?Hh, ?Ht, ?Hl)); reflexivity.
Qed.

Lemma stored_hash_blank w data :
  files w !! hash_path (state_dir_of w) = Some (Readable data) →
  Forall (λ c, is_space c = true) data →
  last_hash (stored_state w) = None.
Proof.
  intros Hfile Hblank. rewrite (stored_hash_readable w data Hfile).
  cbn zeta. rewrite strip_spaces; [done |].
  by apply (universal_newlines_spaces (length data)).
Qed.

End StoredHash.

(** ** Runs *)

Section Runs.
Context {E : Externals}.

(** C5. When a fingerprint is stored, no listing is new and the
    fingerprint of the page equals the stored one, the run returns 0 (and
    the process exits with 0), calls no notifier channel and leaves every
    file as it was. *)
Theorem unchanged_run_is_noop (debug : bool) (w : world) (html : str) :
  http_get w (target_url w) = Some html →
  last_hash (stored_state w) = Some (stable_hash (normalize_text html)) →
  extract_listings html (target_url w) ∖ last_listings (stored_state w) = ∅ →
  ∃ w',
    run_once debug w = (Return 0%Z, w')
    ∧ main debug w = (0%Z, w')
    ∧ files w' = files w
    ∧ notifications (trace w') = notifications (trace w).
Proof.
  intros Hfetch Hhash Hnew.
  destruct (run_once_unchanged debug w html Hfetch Hhash Hnew) as (t & Hrun & Ht).
  exists (with_trace t w). split; [done |]. split; [| done].
  unfold main. by rewrite Hrun.
Qed.

(** C10. When the fingerprint file exists but holds nothing or only
    whitespace, the stored fingerprint reads as absent, whatever the other
    two files hold; the run then takes the baseline branch: it overwrites
    the three files with the current snapshot, and the only notification it
    can send is the baseline one, never a change notification. *)
Theorem blank_fingerprint_restarts_baseline
  (debug : bool) (w : world) (html data : str) :
  http_get w (target_url w) = Some html →
  files w !! hash_path (state_dir_of w) = Some (Readable data) →
  Forall (λ c, Py.is_space c = true) data →
  let text := normalize_text html in
  let body := baseline_body (utc_now w) (target_url w) in
  last_hash (stored_state w) = None
  ∧ ∃ r w',
      run_once debug w = (r, w')
      ∧ files w'
        = snapshot_files (state_dir_of w) (stable_hash text) text
            (extract_listings html (target_url w)) (files w)
      ∧ notifications (trace w')
        = notifications (trace w)
          ++ (if env_flag "NOTIFY_ON_FIRST_RUN" false w
              then [Telegram (baseline_subject ++ nl ++ body) (telegram_outcome w);
                    Email baseline_subject body (email_outcome w)]
              else []).
Proof.
  intros Hfetch Hfile Hblank text body.
  pose proof (stored_hash_blank w data Hfile Hblank) as Hnone.
  split; [done |].
  destruct (run_once_baseline debug w html Hfetch Hnone) as (t & Hrun & Ht).
  eexists _, _. split; [exact Hrun |]. split; [done |]. exact Ht.
Qed.

Lemma smtp_failure_result w :
  smtp_port_ok w = true → smtp_configured w = true → smtp_up w = false →
  email_result w = Raise SMTPException ∧ email_outcome w = Failed.
Proof.
  intros Hport Hconf Hup. unfold email_result, email_outcome.
  by rewrite Hport, Hconf, Hup.
Qed.

(** C1, the code at the failing runs. With SMTP configured and the SMTP
    session failing, every run that notifies ends in the exception of
    [send_email]: [run_once] does not return, the process exits with 1, and
    in the two branches that save the snapshot after notifying no file is
    written.  A failing Telegram call never has this effect: [send_telegram]
    always returns. *)
Theorem smtp_failure_aborts_run (debug : bool) (w : world) (html : str) :
  http_get w (target_url w) = Some html →
  smtp_port_ok w = true → smtp_configured w = true → smtp_up w = false →
  (last_hash (stored_state w) = None
     ∧ env_flag "NOTIFY_ON_FIRST_RUN" false w = true)
  ∨ (∃ old_hash,
       last_hash (stored_state w) = Some old_hash
       ∧ (extract_listings html (target_url w)
            ∖ last_listings (stored_state w) ≠ ∅
          ∨ stable_hash (normalize_text html) ≠ old_hash)) →
  (∃ w',
     run_once debug w = (Raise SMTPException, w')
     ∧ (main debug w).1 = 1%Z
     ∧ (last_hash (stored_state w) ≠ None → files w' = files w))
  ∧ (∀ message w0, (send_telegram message w0).1 = Return tt).
Proof.
  intros Hfetch Hport Hconf Hup Hcase.
  destruct (smtp_failure_result w Hport Hconf Hup) as [Hres _].
  split; [| intros message w0; by rewrite send_telegram_spec].
  assert (∀ w', run_once debug w = (Raise SMTPException, w') →
                (main debug w).1 = 1%Z) as Hmain.
  { intros w' Hrun. unfold main. by rewrite Hrun. }
  destruct Hcase as [[Hnone Hflag] | (old_hash & Hsome & Hwhy)].
  - destruct (run_once_baseline debug w html Hfetch Hnone) as (t & Hrun & _).
    rewrite Hflag in Hrun. unfold after_email in Hrun. rewrite Hres in Hrun.
    eexists. split; [exact Hrun |]. split; [by eapply Hmain |]. by rewrite Hnone.
  - destruct (decide (extract_listings html (target_url w)
                      ∖ last_listings (stored_state w) = ∅)) as [Hnew | Hnew].
    + destruct Hwhy as [Hwhy | Hwhy]; [done |].
      destruct (run_once_changed debug w html old_hash Hfetch Hsome Hnew Hwhy)
        as (t & Hrun & _).
      unfold after_email in Hrun. rewrite Hres in Hrun.
      eexists. split; [exact Hrun |]. split; [by eapply Hmain | done].
    + destruct (run_once_new_listings debug w html old_hash Hfetch Hsome Hnew)
        as (t & Hrun & _).
      unfold after_email in Hrun. rewrite Hres in Hrun.
      eexists. split; [exact Hrun |]. split; [by eapply Hmain | done].
Qed.

(** C2, the code at the failing runs. With a fingerprint stored, a new
    listing on the page, SMTP configured and the SMTP session failing: the
    Telegram channel is called with the new listings, the e-mail call
    raises, and the run ends there, before [write_state]: no file changes,
    so the snapshot is not saved. *)
Theorem new_listings_unsaved_on_smtp_failure
  (debug : bool) (w : world) (html old_hash : str) :
  http_get w (target_url w) = Some html →
  last_hash (stored_state w) = Some old_hash →
  extract_listings html (target_url w) ∖ last_listings (stored_state w) ≠ ∅ →
  smtp_port_ok w = true → smtp_configured w = true → smtp_up w = false →
  let message :=
    new_listings_message (utc_now w) (target_url w)
      (sorted (elements (extract_listings html (target_url w)
                         ∖ last_listings (stored_state w)))) in
  ∃ w',
    run_once debug w = (Raise SMTPException, w')
    ∧ files w' = files w
    ∧ notifications (trace w')
      = notifications (trace w)
        ++ [Telegram message (telegram_outcome w);
            Email new_listings_subject message Failed].
Proof.
  intros Hfetch Hsome Hnew Hport Hconf Hup message.
  destruct (smtp_failure_result w Hport Hconf Hup) as [Hres Hout].
  destruct (run_once_new_listings debug w html old_hash Hfetch Hsome Hnew)
    as (t & Hrun & Ht).
  unfold after_email in Hrun. rewrite Hres in Hrun. rewrite Hout in Ht.
  eexists. split; [exact Hrun |]. split; [done | exact Ht].
Qed.

(** C3, the code at the failing runs. With a fingerprint stored, no new
    listing, another fingerprint for the page, SMTP configured and the SMTP
    session failing: the Telegram channel is called with the diff, the
    e-mail call raises, and the run ends before [write_state]: the snapshot
    is not saved. *)
Theorem change_unsaved_on_smtp_failure
  (debug : bool) (w : world) (html old_hash : str) :
  http_get w (target_url w) = Some html →
  last_hash (stored_state w) = Some old_hash →
  extract_listings html (target_url w) ∖ last_listings (stored_state w) = ∅ →
  stable_hash (normalize_text html) ≠ old_hash →
  smtp_port_ok w = true → smtp_configured w = true → smtp_up w = false →
  let text := normalize_text html in
  let subject := change_subject (utc_now w) in
  let body :=
    change_body (target_url w) old_hash (stable_hash text)
      (make_diff (default [] (last_text (stored_state w))) text
         default_max_lines) in
  ∃ w',
    run_once debug w = (Raise SMTPException, w')
    ∧ files w' = files w
    ∧ notifications (trace w')
      = notifications (trace w)
        ++ [Telegram (subject ++ nl ++ body) (telegram_outcome w);
            Email subject body Failed].
Proof.
  intros Hfetch Hsome Hnew Hdiff Hport Hconf Hup text subject body.
  destruct (smtp_failure_result w Hport Hconf Hup) as [Hres Hout].
  destruct (run_once_changed debug w html old_hash Hfetch Hsome Hnew Hdiff)
    as (t & Hrun & Ht).
  unfold after_email in Hrun. rewrite Hres in Hrun. rewrite Hout in Ht.
  eexists. split; [exact Hrun |]. split; [done | exact Ht].
Qed.

(** C4, the code at the failing runs. Without a stored fingerprint, with
    the first-run notification switched on, SMTP configured and the SMTP
    session failing: the snapshot is saved and the Telegram channel is
    called, then the e-mail call raises and the process exits with 1. *)
Theorem baseline_exit_1_on_smtp_failure (debug : bool) (w : world) (html : str) :
  http_get w (target_url w) = Some html →
  last_hash (stored_state w) = None →
  env_flag "NOTIFY_ON_FIRST_RUN" false w = true →
  smtp_port_ok w = true → smtp_configured w = true → smtp_up w = false →
  let text := normalize_text html in
  ∃ w',
    run_once debug w = (Raise SMTPException, w')
    ∧ (main debug w).1 = 1%Z
    ∧ files w'
      = snapshot_files (state_dir_of w) (stable_hash text) text
          (extract_listings html (target_url w)) (files w).
Proof.
  intros Hfetch Hnone Hflag Hport Hconf Hup text.
  destruct (smtp_failure_result w Hport Hconf Hup) as [Hres _].
  destruct (run_once_baseline debug w html Hfetch Hnone) as (t & Hrun & _).
  rewrite Hflag in Hrun. unfold after_email in Hrun. rewrite Hres in Hrun.
  eexists. split; [exact Hrun |]. split; [| done].
  unfold main. by rewrite Hrun.
Qed.

(** *** The same branches when the e-mail call returns

    The three notifying branches do what the specification says of them
    whenever [send_email] returns, which it does when SMTP is not
    configured or the session succeeds. *)

Lemma smtp_success_cases w :
  smtp_port_ok w = true →
  smtp_configured w = false ∨ smtp_up w = true →
  email_result w = Return tt.
Proof.
  intros Hport Hcase. unfold email_result. rewrite Hport.
  destruct Hcase as [-> | ->]; [done |]. by rewrite andb_false_r.
Qed.

(** X20. With a stored fingerprint and a listing that was not stored, a
    run whose e-mail call returns calls Telegram and e-mail with the new
    listings (sorted, the first ten shown, the rest counted), saves the
    snapshot and returns 0, whether or not the fingerprint changed: no
    diff is sent. *)
Lemma new_listings_run_saves debug w html old_hash :
  http_get w (target_url w) = Some html →
  last_hash (stored_state w) = Some old_hash →
  extract_listings html (target_url w) ∖ last_listings (stored_state w) ≠ ∅ →
  email_result w = Return tt →
  let text := normalize_text html in
  let message :=
    new_listings_message (utc_now w) (target_url w)
      (sorted (elements (extract_listings html (target_url w)
                         ∖ last_listings (stored_state w)))) in
  ∃ w',
    run_once debug w = (Return 0%Z, w')
    ∧ main debug w = (0%Z, w')
    ∧ files w'
      = snapshot_files (state_dir_of w) (stable_hash text) text
          (extract_listings html (target_url w)) (files w)
    ∧ notifications (trace w')
      = notifications (trace w)
        ++ [Telegram message (telegram_outcome w);
            Email new_listings_subject message (email_outcome w)].
Proof.
  intros Hfetch Hsome Hnew Hres text message.
  destruct (run_once_new_listings debug w html old_hash Hfetch Hsome Hnew)
    as (t & Hrun & Ht).
  unfold after_email in Hrun. rewrite Hres in Hrun.
  eexists. split; [exact Hrun |]. split; [| split; [done | exact Ht]].
  unfold main. by rewrite Hrun.
Qed.

(** X21. With a stored fingerprint, no new listing and another
    fingerprint for the page, a run whose e-mail call returns calls
    Telegram and e-mail with the diff of the stored text (the empty text
    when none is stored) against the new one, saves the snapshot and
    returns 0. *)
Lemma changed_run_saves debug w html old_hash :
  http_get w (target_url w) = Some html →
  last_hash (stored_state w) = Some old_hash →
  extract_listings html (target_url w) ∖ last_listings (stored_state w) = ∅ →
  stable_hash (normalize_text html) ≠ old_hash →
  email_result w = Return tt →
  let text := normalize_text html in
  let subject := change_subject (utc_now w) in
  let body :=
    change_body (target_url w) old_hash (stable_hash text)
      (make_diff (default [] (last_text (stored_state w))) text
         default_max_lines) in
  ∃ w',
    run_once debug w = (Return 0%Z, w')
    ∧ main debug w = (0%Z, w')
    ∧ files w'
      = snapshot_files (state_dir_of w) (stable_hash text) text
          (extract_listings html (target_url w)) (files w)
    ∧ notifications (trace w')
      = notifications (trace w)
        ++ [Telegram (subject ++ nl ++ body) (telegram_outcome w);
            Email subject body (email_outcome w)].
Proof.
  intros Hfetch Hsome Hnew Hdiff Hres text subject body.
  destruct (run_once_changed debug w html old_hash Hfetch Hsome Hnew Hdiff)
    as (t & Hrun & Ht).
  unfold after_email in Hrun. rewrite Hres in Hrun.
  eexists. split; [exact Hrun |]. split; [| split; [done | exact Ht]].
  unfold main. by rewrite Hrun.
Qed.

(** X22. Without a stored fingerprint, a run saves the snapshot before
    anything else and returns 0 when first-run notification is off or the
    e-mail call returns; the channels are called, with the baseline
    message, exactly when first-run notification is on. *)
Lemma baseline_run_saves debug w html :
  http_get w (target_url w) = Some html →
  last_hash (stored_state w) = None →
  env_flag "NOTIFY_ON_FIRST_RUN" false w = false ∨ email_result w = Return tt →
  let text := normalize_text html in
  let body := baseline_body (utc_now w) (target_url w) in
  ∃ w',
    run_once debug w = (Return 0%Z, w')
    ∧ main debug w = (0%Z, w')
    ∧ files w'
      = snapshot_files (state_dir_of w) (stable_hash text) text
          (extract_listings html (target_url w)) (files w)
    ∧ notifications (trace w')
      = notifications (trace w)
        ++ (if env_flag "NOTIFY_ON_FIRST_RUN" false w
            then [Telegram (baseline_subject ++ nl ++ body) (telegram_outcome w);
                  Email baseline_subject body (email_outcome w)]
            else []).
Proof.
  intros Hfetch Hnone Hcase text body.
  destruct (run_once_baseline debug w html Hfetch Hnone) as (t & Hrun & Ht).
  assert ((if env_flag "NOTIFY_ON_FIRST_RUN" false w then after_email w
           else Return 0%Z) = Return 0%Z) as Hok.
  { destruct Hcase as [-> | Hres]; [done |].
    unfold after_email. rewrite Hres. by destruct (env_flag _ _ _). }
  rewrite Hok in Hrun.
  eexists. split; [exact Hrun |]. split; [| split; [done | exact Ht]].
  unfold main. by rewrite Hrun.
Qed.

(** The new listings are shown in order. *)
Lemma new_listings_sorted (urls : gset str) :
  Sorted str_le (sorted (elements urls))
  ∧ sorted (elements urls) ≡ₚ elements urls.
Proof.
  split.
  - apply Sorted_merge_sort, _.
  - apply merge_sort_Permutation.
Qed.

End Runs.

(** ** The run after a snapshot was saved *)

Section SecondRun.
Context {E : Externals}.
Import Py PyFacts LineFacts.

Lemma path_join_inj a b b' :
  startswith "/" b = false → startswith "/" b' = false →
  Os.path_join a b = Os.path_join a b' → b = b'.
Proof.
  unfold Os.path_join. intros -> ->. destruct a as [|c a]; [done |].
  destruct (startswith "/" (rev (c :: a))).
  - apply app_inv_head.
  - intros H. apply app_inv_head in H. by apply app_inv_head in H.
Qed.

Lemma state_paths_differ state_dir :
  hash_path state_dir ≠ text_path state_dir
  ∧ hash_path state_dir ≠ listings_path state_dir
  ∧ text_path state_dir ≠ listings_path state_dir.
Proof.
  unfold hash_path, text_path, listings_path.
  repeat split; intros H; apply path_join_inj in H; done.
Qed.

Lemma snapshot_files_lookup state_dir h text listings fs :
  let saved := snapshot_files state_dir h text listings fs in
  saved !! hash_path state_dir = Some (Readable h)
  ∧ saved !! text_path state_dir = Some (Readable text)
  ∧ saved !! listings_path state_dir
    = Some (Readable
              (concat (map (λ url, url ++ nl) (sorted (elements listings))))).
Proof.
  destruct (state_paths_differ state_dir) as (Hht & Hhl & Htl).
  unfold snapshot_files. cbn zeta. repeat split.
  - rewrite lookup_insert_ne, lookup_insert_ne by done. apply lookup_insert_eq.
  - rewrite lookup_insert_ne by done. apply lookup_insert_eq.
  - apply lookup_insert_eq.
Qed.

(** What [read_state] returns when the three files can be read. *)
Lemma stored_state_readable w dh dt dl :
  files w !! hash_path (state_dir_of w) = Some (Readable dh) →
  files w !! text_path (state_dir_of w) = Some (Readable dt) →
  files w !! listings_path (state_dir_of w) = Some (Readable dl) →
  stored_state w
  = {| last_hash :=
         (let stripped := strip (Os.universal_newlines dh) in
          if truthy stripped then Some stripped else None);
       last_text := Some (Os.universal_newlines dt);
       last_listings :=
         list_to_set
           (map strip
              (List.filter (λ ln, truthy (strip ln))
                 (Os.iter_lines (Os.universal_newlines dl)))) |}.
Proof.
  unfold stored_state, read_state, hash_path, text_path, listings_path.
  set (hp := Os.path_join (state_dir_of w) "last_hash.txt").
  set (tp := Os.path_join (state_dir_of w) "last_text.txt").
  set (lp := Os.path_join (state_dir_of w) "last_listings.txt").
  clearbody hp tp lp. intros Hh Ht Hl.
  repeat (progress (run_monad; rewrite ?Hh, ?Ht, ?Hl)). reflexivity.
Qed.

Lemma universal_newlines_id s : CR ∉ s → Os.universal_newlines s = s.
Proof.
  induction s as [|c s IH]; [done |]. intros Hcr.
  apply not_elem_of_cons in Hcr as [Hc Hs]. cbn [Os.universal_newlines].
  destruct (Ascii.eqb_spec c CR) as [-> | _]; [done |]. by rewrite IH.
Qed.

Lemma iter_lines_line u rest :
  LF ∉ u → Os.iter_lines (u ++ LF :: rest) = (u ++ nl) :: Os.iter_lines rest.
Proof.
  induction u as [|c u IH]; intros Hlf.
  - done.
  - apply not_elem_of_cons in Hlf as [Hc Hu].
    change ((c :: u) ++ LF :: rest) with (c :: (u ++ LF :: rest)).
    cbn [Os.iter_lines].
    destruct (Ascii.eqb_spec c LF) as [-> | _]; [done |].
    by rewrite IH.
Qed.

Lemma strip_line u : u ≠ [] → strip u = u → strip (u ++ nl) = u.
Proof.
  intros Hne Hu.
  destruct (stripped_ends is_space u Hne Hu)
    as [(c & t & Hct & Hc) (v & d & Hvd & Hd)].
  unfold strip, strip_with.
  rewrite Hct. change ((c :: t) ++ nl) with (c :: (t ++ nl)).
  rewrite lstrip_with_id by done. rewrite <- Hct, Hvd.
  change (c :: t ++ nl) with ((c :: t) ++ nl). rewrite <- Hct, Hvd.
  unfold rstrip_with. rewrite !rev_app_distr. simpl.
  rewrite Hd. simpl. by rewrite rev_involutive.
Qed.

(** Lines written by [write_state] and read back by [read_state]. *)
Lemma listing_lines_round_trip (urls : list str) :
  Forall survives_state_file urls →
  map strip
    (List.filter (λ ln, truthy (strip ln))
       (Os.iter_lines
          (Os.universal_newlines (concat (map (λ url, url ++ nl) urls)))))
  = urls.
Proof.
  intros Hurls.
  assert (CR ∉ concat (map (λ url, url ++ nl) urls)) as Hcr.
  { induction Hurls as [|u urls (_ & _ & Hu & _) _ IH]; simpl.
    - apply not_elem_of_nil.
    - rewrite !not_elem_of_app. split; [split; [done |] | done].
      unfold nl. apply not_elem_of_cons. split; [done | apply not_elem_of_nil]. }
  rewrite universal_newlines_id by done. clear Hcr.
  induction Hurls as [|u urls (Hne & Hstrip & _ & Hlf) _ IH]; [done |].
  cbn [map concat]. rewrite <- app_assoc.
  change (nl ++ concat (map (λ url, url ++ nl) urls))
    with (LF :: concat (map (λ url, url ++ nl) urls)).
  rewrite iter_lines_line by done. cbn [List.filter].
  rewrite strip_line by done. destruct u as [|c u]; [done |].
  cbn [truthy map]. rewrite strip_line by done. by rewrite IH.
Qed.

(** When the fingerprint and the listing URLs come back from the state
    files as they were written, a run on the page whose snapshot is stored
    sends nothing and writes nothing. *)
Lemma run_after_snapshot_is_quiet debug w html fs :
  http_get w (target_url w) = Some html →
  let text := normalize_text html in
  let listings := extract_listings html (target_url w) in
  files w = snapshot_files (state_dir_of w) (stable_hash text) text listings fs →
  survives_state_file (stable_hash text) →
  (∀ u, u ∈ listings → survives_state_file u) →
  ∃ w',
    run_once debug w = (Return 0%Z, w')
    ∧ files w' = files w
    ∧ notifications (trace w') = notifications (trace w).
Proof.
  intros Hfetch text listings Hfiles (Hne & Hstrip & Hcr & _) Hurls.
  destruct (snapshot_files_lookup (state_dir_of w) (stable_hash text) text
              listings fs) as (Hh & Ht & Hl).
  rewrite <- Hfiles in Hh, Ht, Hl.
  pose proof (stored_state_readable w _ _ _ Hh Ht Hl) as Hstored.
  rewrite (universal_newlines_id (stable_hash text)) in Hstored by done.
  rewrite Hstrip in Hstored. cbn zeta in Hstored.
  rewrite listing_lines_round_trip in Hstored.
  2:{ apply Forall_forall. intros u Hu. apply Hurls.
      apply elem_of_elements. by rewrite <- (merge_sort_Permutation str_le). }
  assert (list_to_set (sorted (elements listings)) = listings) as Hset.
  { unfold sorted.
    rewrite (list_to_set_perm_L _ _ (merge_sort_Permutation str_le _)).
    apply list_to_set_elements_L. }
  rewrite Hset in Hstored.
  destruct (run_once_unchanged debug w html Hfetch) as (t & Hrun & Hn).
  - rewrite Hstored. cbn [last_hash].
    fold text. destruct (stable_hash text) eqn:Hs; [congruence | done].
  - rewrite Hstored. cbn [last_listings]. apply difference_diag_L.
  - eexists. split; [exact Hrun |]. split; done.
Qed.

End SecondRun.

(** ** The statements on the example worlds *)

Section Witnesses.
Import Example.

Ltac compute_eq := vm_compute; reflexivity.
Ltac decide_by_computation := apply (bool_decide_unpack _); vm_compute; exact I.

Lemma unchanged_run_is_noop_witness :
  (main (E := libs) true (world_with page_one (saved page_one) true true)).1
  = 0%Z.
Proof.
  destruct (unchanged_run_is_noop (E := libs) true
              (world_with page_one (saved page_one) true true) page_one)
    as (w' & _ & Hmain & _).
  - compute_eq.
  - compute_eq.
  - compute_eq.
  - by rewrite Hmain.
Defined.

Lemma blank_fingerprint_restarts_baseline_witness :
  last_hash
    (stored_state
       (world_with page_two
          (<[hash_path "/var/psoas" := Readable (lit "  " ++ nl)]>
             (saved page_one))
          false true))
  = None.
Proof.
  apply (blank_fingerprint_restarts_baseline (E := libs) false
           (world_with page_two
              (<[hash_path "/var/psoas" := Readable (lit "  " ++ nl)]>
                 (saved page_one))
              false true)
           page_two (lit "  " ++ nl)).
  - compute_eq.
  - compute_eq.
  - repeat constructor.
Defined.

Lemma smtp_failure_aborts_run_witness :
  (main (E := libs) false (world_with page_two (saved page_one) true false)).1
  = 1%Z.
Proof.
  destruct (smtp_failure_aborts_run (E := libs) false
              (world_with page_two (saved page_one) true false) page_two)
    as [(w' & _ & Hmain & _) _].
  - compute_eq.
  - compute_eq.
  - compute_eq.
  - compute_eq.
  - right. eexists. split; [compute_eq |]. left. decide_by_computation.
  - exact Hmain.
Defined.

Lemma new_listings_unsaved_on_smtp_failure_witness :
  ∃ w',
    run_once (E := libs) false (world_with page_two (saved page_one) true false)
    = (Raise SMTPException, w')
    ∧ files w' = saved page_one.
Proof.
  destruct (new_listings_unsaved_on_smtp_failure (E := libs) false
              (world_with page_two (saved page_one) true false) page_two
              (Reference.digest (normalize_text (E := libs) page_one)))
    as (w' & Hrun & Hfiles & _).
  - compute_eq.
  - compute_eq.
  - decide_by_computation.
  - compute_eq.
  - compute_eq.
  - compute_eq.
  - exists w'. split; [exact Hrun | exact Hfiles].
Defined.

Lemma change_unsaved_on_smtp_failure_witness :
  ∃ w',
    run_once (E := libs) false
      (world_with page_three (saved page_one) true false)
    = (Raise SMTPException, w')
    ∧ files w' = saved page_one.
Proof.
  destruct (change_unsaved_on_smtp_failure (E := libs) false
              (world_with page_three (saved page_one) true false) page_three
              (Reference.digest (normalize_text (E := libs) page_one)))
    as (w' & Hrun & Hfiles & _).
  - compute_eq.
  - compute_eq.
  - compute_eq.
  - decide_by_computation.
  - compute_eq.
  - compute_eq.
  - compute_eq.
  - exists w'. split; [exact Hrun | exact Hfiles].
Defined.

Lemma baseline_exit_1_on_smtp_failure_witness :
  (main (E := libs) false (world_with page_one ∅ true false)).1 = 1%Z.
Proof.
  destruct (baseline_exit_1_on_smtp_failure (E := libs) false
              (world_with page_one ∅ true false) page_one)
    as (w' & _ & Hmain & _).
  - compute_eq.
  - compute_eq.
  - compute_eq.
  - compute_eq.
  - compute_eq.
  - compute_eq.
  - exact Hmain.
Defined.

Lemma make_diff_truncates_witness :
  List.last (make_diff_lines (E := libs) "one" "two" 3) []
  = truncation_marker.
Proof.
  destruct (make_diff_truncates (E := libs) "one" "two" 3) as (_ & Hlong & _).
  - lia.
  - apply Hlong. vm_compute. reflexivity.
Defined.


Lemma read_state_never_raises_witness :
  ∃ v w',
    read_state "/var/psoas"
      (world_with page_one
         (<[text_path "/var/psoas" := Unreadable]> (saved page_one)) true true)
    = (Return v, w')
    ∧ last_text v = None.
Proof.
  destruct (read_state_never_raises "/var/psoas"
              (world_with page_one
                 (<[text_path "/var/psoas" := Unreadable]> (saved page_one))
                 true true))
    as (v & w' & Hread & _ & _ & _ & _ & _ & Htext & _).
  exists v, w'. split; [exact Hread |]. apply Htext. compute_eq.
Defined.

(** The second run on a page whose listing link keeps a space at its end:
    the link is written with the space and read back without it, so the
    run on the same page, right after the baseline was saved, takes the
    listing for a new one and notifies. *)
Lemma second_run_renotifies_spaced_listing :
  let w := world_with page_spaced (saved page_spaced) false true in
  extract_listings (E := libs) page_spaced site
  = {[ lit "https://www.psoas.fi/en/apartments/gamma 3 " ]}
  ∧ last_listings (stored_state w)
    = {[ lit "https://www.psoas.fi/en/apartments/gamma 3" ]}
  ∧ notifications (trace (run_once (E := libs) false w).2)
    = [Telegram
         (new_listings_message (utc_now w) site
            [lit "https://www.psoas.fi/en/apartments/gamma 3 "])
         Delivered;
       Email new_listings_subject
         (new_listings_message (utc_now w) site
            [lit "https://www.psoas.fi/en/apartments/gamma 3 "])
         Delivered].
Proof. repeat split; vm_compute; reflexivity. Qed.

End Witnesses.

(** * Further properties of the script *)

(** ** More on stripping and case *)

Module StripFacts.
Import Py PyFacts LineFacts.

Lemma lstrip_with_padding p pre s :
  Forall (λ c, p c = true) pre → lstrip_with p (pre ++ s) = lstrip_with p s.
Proof. induction 1 as [|c pre Hc _ IH]; [done |]. simpl. by rewrite Hc. Qed.

Lemma rstrip_with_padding p s post :
  Forall (λ c, p c = true) post → rstrip_with p (s ++ post) = rstrip_with p s.
Proof.
  intros H. unfold rstrip_with. rewrite rev_app_distr.
  rewrite lstrip_with_padding; [done |]. by apply Forall_rev.
Qed.

Lemma lstrip_with_nil_all p s :
  lstrip_with p s = [] → Forall (λ c, p c = true) s.
Proof.
  intros H. destruct (lstrip_with_split p s) as (pre & Heq & Hpre).
  rewrite H, app_nil_r in Heq. by subst.
Qed.

Lemma strip_with_padding p pre s post :
  Forall (λ c, p c = true) pre → Forall (λ c, p c = true) post →
  strip_with p (pre ++ s ++ post) = strip_with p s.
Proof.
  intros Hpre Hpost. unfold strip_with. rewrite lstrip_with_padding by done.
  destruct (lstrip_with p s) as [|c t] eqn:Hs.
  - apply lstrip_with_nil_all in Hs.
    rewrite lstrip_with_all; [done |]. by apply Forall_app.
  - rewrite lstrip_with_app by (by rewrite Hs). rewrite Hs.
    by apply rstrip_with_padding.
Qed.

Lemma lstrip_with_map p (f : ascii → ascii) s :
  (∀ c, p (f c) = p c) →
  lstrip_with p (map f s) = map f (lstrip_with p s).
Proof.
  intros Hf. induction s as [|c s IH]; [done |]. simpl.
  rewrite Hf. by destruct (p c).
Qed.

Lemma strip_with_map p (f : ascii → ascii) s :
  (∀ c, p (f c) = p c) →
  strip_with p (map f s) = map f (strip_with p s).
Proof.
  intros Hf. unfold strip_with, rstrip_with.
  rewrite lstrip_with_map, <- map_rev, lstrip_with_map, map_rev by done. done.
Qed.

Lemma is_space_lower_char c : is_space (lower_char c) = is_space c.
Proof. destruct c as [[] [] [] [] [] [] [] []]; vm_compute; reflexivity. Qed.

Lemma strip_lower s : strip (lower s) = lower (strip s).
Proof. apply strip_with_map, is_space_lower_char. Qed.

Lemma no_break_no_cr l : no_break l → CR ∉ l.
Proof.
  intros Hl Hin. unfold no_break in Hl. rewrite Forall_forall in Hl.
  by specialize (Hl CR Hin).
Qed.

Lemma join_nl_no_cr ls : Forall (λ l, CR ∉ l) ls → CR ∉ join nl ls.
Proof.
  induction 1 as [|l ls Hl Hls IH]; [apply not_elem_of_nil |].
  destruct ls as [|l' ls]; [done |].
  rewrite join_cons, !not_elem_of_app. split; [done |]. split; [| done].
  unfold nl. apply not_elem_of_cons. split; [done | apply not_elem_of_nil].
Qed.

End StripFacts.

(** ** Flags of the environment *)

Section EnvBool.
Import Py PyFacts StripFacts.

(** X1. [env_bool] returns the fallback exactly when the variable is
    unset.  When it is set, the value alone decides, whatever the fallback:
    with whitespace around it put aside and letters lowered, the result is
    true when the value is one of 1, true, yes, on, and false for every
    other value, such as false, 0, maybe, the empty string or whitespace
    alone.  It never raises and changes nothing. *)
Theorem env_bool_accepts_any_case_and_padding
  (name : str) (fallback : bool) (w : world) (pre v post : str) :
  Forall (λ c, is_space c = true) pre →
  Forall (λ c, is_space c = true) post →
  (environ w !! name = None → env_bool name fallback w = (Return fallback, w))
  ∧ (environ w !! name = Some (pre ++ v ++ post) →
     env_bool name fallback w
     = (Return (bool_decide
                  (strip (lower v) ∈ [lit "1"; lit "true"; lit "yes"; lit "on"])),
        w))
  ∧ (environ w !! name = Some (pre ++ v ++ post) →
     lower v ∈ [lit "1"; lit "true"; lit "yes"; lit "on"] →
     env_bool name fallback w = (Return true, w))
  ∧ (environ w !! name = Some (pre ++ v ++ post) →
     strip (lower v) ∉ [lit "1"; lit "true"; lit "yes"; lit "on"] →
     env_bool name fallback w = (Return false, w))
  ∧ (environ w !! name = Some (pre ++ post) →
     env_bool name fallback w = (Return false, w)).
Proof.
  intros Hpre Hpost.
  assert (∀ x, environ w !! name = Some (pre ++ x ++ post) →
               env_bool name fallback w
               = (Return (bool_decide
                            (strip (lower x)
                             ∈ [lit "1"; lit "true"; lit "yes"; lit "on"])),
                  w)) as Hset.
  { intros x Hsome. rewrite env_bool_spec. unfold env_flag. rewrite Hsome.
    rewrite strip_lower. unfold strip.
    by rewrite strip_with_padding. }
  split; [| split; [| split; [| split]]].
  - intros Hnone. rewrite env_bool_spec. unfold env_flag. by rewrite Hnone.
  - apply Hset.
  - intros Hsome Hword. rewrite (Hset _ Hsome). do 2 f_equal.
    apply bool_decide_eq_true_2.
    repeat (apply elem_of_cons in Hword as [-> | Hword];
            [apply (bool_decide_unpack _); vm_compute; exact I |]).
    by apply elem_of_nil in Hword.
  - intros Hsome Hword. rewrite (Hset _ Hsome). do 2 f_equal.
    by apply bool_decide_eq_false_2.
  - intros Hsome. rewrite (Hset []) by done. do 2 f_equal.
Qed.

End EnvBool.

(** ** The normalizer's output *)

Section NormalizedText.
Context {E : Externals}.
Import Py PyFacts LineFacts StripFacts.

(** X5. Whatever the page, the normalized text has no blank line and no
    line with whitespace at either end, is not padded itself, and contains
    no carriage return: its lines are exactly the stripped, non-empty lines
    that were joined. *)
Theorem normalize_text_has_clean_lines (html : str) :
  Forall (λ l, l ≠ [] ∧ strip l = l) (splitlines (normalize_text html))
  ∧ normalize_text html = join nl (splitlines (normalize_text html))
  ∧ strip (normalize_text html) = normalize_text html
  ∧ CR ∉ normalize_text html.
Proof.
  destruct (normalize_text_lines html) as (lines & Heq & Hlines).
  assert (splitlines (join nl lines) = lines) as Hsplit.
  { apply splitlines_join. eapply Forall_impl; [done |]. by intros ? (? & ? & ?). }
  rewrite Heq, Hsplit. repeat split.
  - eapply Forall_impl; [done |]. by intros ? (? & ? & ?).
  - apply strip_with_join. eapply Forall_impl; [done |]. by intros ? (? & ? & ?).
  - apply join_nl_no_cr. eapply Forall_impl; [done |].
    intros l (_ & _ & Hl). by apply no_break_no_cr.
Qed.

End NormalizedText.

(** ** Which links become listings *)

Section ListingMembership.
Context {E : Externals}.
Import Py PyFacts SplitFacts.








End ListingMembership.

(** ** The size of a diff *)

Section DiffSize.
Context {E : Externals}.
Import Py.

(** X3. With a maximum that is not negative, the differ never returns more
    than [max_lines + 1] lines, whatever the two texts. *)
Theorem make_diff_lines_bounded (old new : str) (max_lines : Z) :
  (0 ≤ max_lines)%Z →
  (Z.of_nat (length (make_diff_lines old new max_lines)) ≤ max_lines + 1)%Z.
Proof.
  intros Hmax. unfold make_diff_lines.
  set (d := unified_diff _ _ _ _ _).
  destruct (Z.gtb_spec (Z.of_nat (length d)) max_lines) as [Hlong | Hshort].
  - rewrite slice_to_nonneg by done.
    rewrite length_app, length_firstn. simpl. lia.
  - lia.
Qed.

(** X4. A negative maximum cuts from the end: the differ then always
    appends the marker, even to a short or empty diff, after dropping the
    last [- max_lines] lines of the diff (all of them when there are
    fewer). *)
Theorem make_diff_negative_maximum (old new : str) (max_lines : Z) :
  (max_lines < 0)%Z →
  let d := unified_diff (splitlines old) (splitlines new)
             "previous" "current" "" in
  make_diff_lines old new max_lines
  = firstn (length d - Z.to_nat (- max_lines)) d ++ [truncation_marker].
Proof.
  intros Hmax d. unfold make_diff_lines. fold d.
  destruct (Z.gtb_spec (Z.of_nat (length d)) max_lines) as [_ | Hle]; [| lia].
  unfold slice_to. destruct (Z.leb_spec 0 max_lines); [lia | done].
Qed.

End DiffSize.

(** ** The two channels *)

Section Channels.
Context {E : Externals}.

(** X6. [send_telegram] never raises and touches neither files nor
    environment.  Each call leaves exactly one Telegram event: the message
    is delivered only if token and chat id are both set and not empty and
    the POST succeeds; without both settings nothing is posted, even when
    the service is reachable. *)
Theorem send_telegram_is_contained (message : str) (w : world) :
  ∃ w',
    send_telegram message w = (Return tt, w')
    ∧ files w' = files w
    ∧ environ w' = environ w
    ∧ notifications (trace w')
      = notifications (trace w) ++ [Telegram message (telegram_outcome w)]
    ∧ (telegram_outcome w = Delivered
       ↔ opt_truthy (environ w !! lit "TELEGRAM_BOT_TOKEN") = true
         ∧ opt_truthy (environ w !! lit "TELEGRAM_CHAT_ID") = true
         ∧ telegram_up w = true)
    ∧ (telegram_outcome w = Skipped
       ↔ opt_truthy (environ w !! lit "TELEGRAM_BOT_TOKEN") = false
         ∨ opt_truthy (environ w !! lit "TELEGRAM_CHAT_ID") = false).
Proof.
  eexists. split; [apply send_telegram_spec |]. split; [done |]. split; [done |].
  split.
  { cbn [trace with_trace]. by rewrite notifications_app, notifications_telegram. }
  unfold telegram_outcome, telegram_configured.
  destruct (opt_truthy (environ w !! lit "TELEGRAM_BOT_TOKEN")),
    (opt_truthy (environ w !! lit "TELEGRAM_CHAT_ID")), (telegram_up w);
    cbn; split; split; intros; try done; try tauto;
    repeat match goal with H : _ ∧ _ |- _ => destruct H end;
    try match goal with H : _ ∨ _ |- _ => destruct H end; done.
Qed.

(** X7. [send_email] reads [SMTP_PORT] as an integer before it looks at
    the configuration: with a value that is not an integer the call raises
    [ValueError], whether or not SMTP is configured and whether or not the
    relay is reachable, and no mail is sent. *)
Theorem send_email_bad_port_raises (subject body : str) (w : world) (port : str) :
  environ w !! lit "SMTP_PORT" = Some port →
  py_int port = None →
  send_email subject body w
  = (Raise ValueError,
     with_trace (trace w ++ [Email subject body Failed]) w).
Proof.
  intros Hport Hint. rewrite send_email_spec.
  unfold email_result, email_events, smtp_port_ok. by rewrite Hport; cbn; rewrite Hint.
Qed.

(** X8. With a port that reads as an integer: a user name and a password
    that are set and not empty configure the e-mail channel by themselves
    (the sender defaults to the user name, the recipient to the built-in
    address), and then the call returns exactly when the SMTP session
    succeeds; without a user name or without a password the call is skipped
    with a warning and returns, whether or not the relay is reachable. *)
Theorem send_email_configuration (subject body : str) (w : world) :
  smtp_port_ok w = true →
  (opt_truthy (environ w !! lit "SMTP_USERNAME") = true →
   opt_truthy (environ w !! lit "SMTP_PASSWORD") = true →
   environ w !! lit "EMAIL_FROM" = None →
   environ w !! lit "RECIPIENT_EMAIL" = None →
   send_email subject body w
   = (if smtp_up w then Return tt else Raise SMTPException,
      with_trace
        (trace w
         ++ [Email subject body (if smtp_up w then Delivered else Failed)])
        w))
  ∧ (opt_truthy (environ w !! lit "SMTP_USERNAME") = false
     ∨ opt_truthy (environ w !! lit "SMTP_PASSWORD") = false →
     send_email subject body w
     = (Return tt,
        with_trace
          (trace w
           ++ [Stderr "[WARN] Missing SMTP configuration; email not sent.";
               Email subject body Skipped])
          w)).
Proof.
  intros Hport. rewrite send_email_spec.
  unfold email_result, email_events, smtp_configured. rewrite Hport. cbn [negb].
  split.
  - intros Huser Hpass Hfrom Hto. rewrite Huser, Hpass, Hfrom, Hto.
    destruct (environ w !! lit "SMTP_USERNAME") as [[|c user]|] eqn:Hu;
      [done | | done].
    cbn [default andb negb Py.truthy]. by destruct (smtp_up w).
  - intros [Hno | Hno]; rewrite Hno; [done |].
    by rewrite andb_false_r.
Qed.

End Channels.

(** ** Writing the state and reading it back *)

Section StateRoundTrip.
Import Py PyFacts LineFacts StripFacts.

(** What [read_state] returns, in any directory, when the three files can
    be read. *)
Lemma read_state_readable state_dir w dh dt dl :
  files w !! hash_path state_dir = Some (Readable dh) →
  files w !! text_path state_dir = Some (Readable dt) →
  files w !! listings_path state_dir = Some (Readable dl) →
  read_state state_dir w
  = (Return
       {| last_hash :=
            (let stripped := strip (Os.universal_newlines dh) in
             if truthy stripped then Some stripped else None);
          last_text := Some (Os.universal_newlines dt);
          last_listings :=
            list_to_set
              (map strip
                 (List.filter (λ ln, truthy (strip ln))
                    (Os.iter_lines (Os.universal_newlines dl)))) |},
     w).
Proof.
  unfold read_state, hash_path, text_path, listings_path.
  set (hp := Os.path_join state_dir "last_hash.txt").
  set (tp := Os.path_join state_dir "last_text.txt").
  set (lp := Os.path_join state_dir "last_listings.txt").
  clearbody hp tp lp. intros Hh Ht Hl.
  repeat (progress (run_monad; rewrite ?Hh, ?Ht, ?Hl)). reflexivity.
Qed.

(** X9. What [write_state] saves, [read_state] returns: the same
    fingerprint, text and listing set, without a warning, provided the
    fingerprint and every URL are non-empty, free of whitespace at their
    ends and of line breaks, and the text has no carriage return. *)
Theorem write_state_read_state_round_trip
  (state_dir h text : str) (listings : gset str) (w : world) :
  survives_state_file h →
  (∀ u, u ∈ listings → survives_state_file u) →
  CR ∉ text →
  ∃ w1,
    write_state state_dir h text (Some listings) w = (Return tt, w1)
    ∧ read_state state_dir w1
      = (Return {| last_hash := Some h; last_text := Some text;
                   last_listings := listings |},
         w1).
Proof.
  intros (Hne & Hstrip & Hcr & _) Hurls Htext.
  eexists. split; [reflexivity |].
  destruct (snapshot_files_lookup state_dir h text listings (files w))
    as (Hh & Ht & Hl).
  erewrite read_state_readable; [| exact Hh | exact Ht | exact Hl].
  do 2 f_equal.
  rewrite !universal_newlines_id by done. rewrite Hstrip. cbn zeta.
  rewrite listing_lines_round_trip.
  2:{ apply Forall_forall. intros u Hu. apply Hurls.
      apply elem_of_elements. by rewrite <- (merge_sort_Permutation str_le). }
  assert (list_to_set (sorted (elements listings)) = listings) as ->.
  { unfold sorted.
    rewrite (list_to_set_perm_L _ _ (merge_sort_Permutation str_le _)).
    apply list_to_set_elements_L. }
  by destruct h.
Qed.

(** X10. [read_state] gives up at the first file it cannot read.  When
    the fingerprint file cannot be read, nothing is returned, whatever the
    other two files hold.  When the fingerprint can be read and the text
    file cannot, the fingerprint is returned with an empty listing set,
    whatever the listings file holds. *)
Theorem read_state_stops_at_first_failure (state_dir : str) (w : world) :
  (files w !! hash_path state_dir = Some Unreadable →
   (read_state state_dir w).1
   = Return {| last_hash := None; last_text := None; last_listings := ∅ |})
  ∧ (∀ dh,
       files w !! hash_path state_dir = Some (Readable dh) →
       files w !! text_path state_dir = Some Unreadable →
       (read_state state_dir w).1
       = Return
           {| last_hash :=
                (let stripped := strip (Os.universal_newlines dh) in
                 if truthy stripped then Some stripped else None);
              last_text := None; last_listings := ∅ |}).
Proof.
  unfold read_state, hash_path, text_path, listings_path.
  set (hp := Os.path_join state_dir "last_hash.txt").
  set (tp := Os.path_join state_dir "last_text.txt").
  set (lp := Os.path_join state_dir "last_listings.txt").
  clearbody hp tp lp. split.
  - intros Hh. repeat (progress (run_monad; rewrite ?Hh)). reflexivity.
  - intros dh Hh Ht. repeat (progress (run_monad; rewrite ?Hh, ?Ht)). reflexivity.
Qed.

End StateRoundTrip.

Section SavedText.
Context {E : Externals}.
Import Py PyFacts LineFacts StripFacts.

(** X11. The text a run saves reads back unchanged, for every page: the
    normalizer produces no carriage return, so reading the text file in
    text mode alters nothing. *)
Theorem saved_text_reads_back
  (state_dir h html : str) (listings : gset str) (w : world) :
  ∃ w1 v w2,
    write_state state_dir h (normalize_text html) (Some listings) w
    = (Return tt, w1)
    ∧ read_state state_dir w1 = (Return v, w2)
    ∧ last_text v = Some (normalize_text html).
Proof.
  eexists. eexists. eexists. split; [reflexivity |].
  destruct (snapshot_files_lookup state_dir h (normalize_text html) listings
              (files w)) as (Hh & Ht & Hl).
  split.
  - erewrite read_state_readable; [reflexivity | exact Hh | exact Ht | exact Hl].
  - cbn [last_text]. f_equal. apply universal_newlines_id.
    destruct (normalize_text_lines html) as (lines & -> & Hlines).
    apply join_nl_no_cr. eapply Forall_impl; [done |].
    intros l (_ & _ & Hl'). by apply no_break_no_cr.
Qed.

End SavedText.

(** ** Every run *)

Section EveryRun.
Context {E : Externals}.

(** A fetch that fails ends the run at once. *)
Lemma run_once_fetch_failure debug w :
  http_get w (target_url w) = None →
  ∃ t,
    run_once debug w = (Raise HTTPError, with_trace t w)
    ∧ notifications t = notifications (trace w).
Proof.
  intros Hfetch. unfold run_once. run_monad. rewrite env_bool_spec.
  fold (target_url w) (state_dir_of w).
  destruct debug; run_monad; unfold fetch; run_monad; rewrite Hfetch.
  - eexists. split; [reflexivity |].
    rewrite notifications_app. cbn. by rewrite app_nil_r.
  - exists (trace w). split; [| done]. by rewrite with_trace_id.
Qed.

(** What any run comes to: it returns 0 or raises; the files are as before
    or hold a snapshot; the channels were not called, or Telegram and then
    e-mail were called once each. *)
Lemma run_once_cases debug w :
  ∃ r t fs delta,
    run_once debug w = (r, with_trace t (with_files fs w))
    ∧ notifications t = notifications (trace w) ++ delta
    ∧ (r = Return 0%Z ∨ ∃ e, r = Raise e)
    ∧ (fs = files w
       ∨ ∃ h text listings,
           fs = snapshot_files (state_dir_of w) h text listings (files w))
    ∧ (delta = []
       ∨ ∃ message subject body,
           delta = [Telegram message (telegram_outcome w);
                    Email subject body (email_outcome w)]).
Proof.
  assert (after_email w = Return 0%Z ∨ ∃ e, after_email w = Raise e) as Hafter.
  { unfold after_email. destruct (email_result w) as [[]|e]; [by left |].
    right. by exists e. }
  destruct (http_get w (target_url w)) as [html|] eqn:Hfetch.
  2:{ destruct (run_once_fetch_failure debug w Hfetch) as (t & Hrun & Ht).
      exists (Raise HTTPError), t, (files w), [].
      split; [exact Hrun |]. rewrite app_nil_r.
      split; [done |]. split; [right; by eexists |]. split; by left. }
  destruct (last_hash (stored_state w)) as [old_hash|] eqn:Hhash.
  2:{ destruct (run_once_baseline debug w html Hfetch Hhash) as (t & Hrun & Ht).
      eexists _, t, _, _. split; [exact Hrun |]. split; [exact Ht |].
      split; [by destruct (env_flag _ _ _); [| left] |].
      split; [right; by eexists _, _, _ |].
      destruct (env_flag _ _ _); [right; by eexists _, _, _ | by left]. }
  destruct (decide (extract_listings html (target_url w)
                    ∖ last_listings (stored_state w) = ∅)) as [Hnew | Hnew].
  2:{ destruct (run_once_new_listings debug w html old_hash Hfetch Hhash Hnew)
        as (t & Hrun & Ht).
      eexists _, t, _, _. split; [exact Hrun |]. split; [exact Ht |].
      split; [done |].
      split; [destruct (email_result w); [right; by eexists _, _, _ | by left] |].
      right. by eexists _, _, _. }
  destruct (decide (stable_hash (normalize_text html) = old_hash))
    as [Hsame | Hdiff].
  - subst old_hash.
    destruct (run_once_unchanged debug w html Hfetch Hhash Hnew) as (t & Hrun & Ht).
    exists (Return 0%Z), t, (files w), [].
    split; [exact Hrun |]. rewrite app_nil_r.
    split; [done |]. split; [by left |]. split; by left.
  - destruct (run_once_changed debug w html old_hash Hfetch Hhash Hnew Hdiff)
      as (t & Hrun & Ht).
    eexists _, t, _, _. split; [exact Hrun |]. split; [exact Ht |].
    split; [done |].
    split; [destruct (email_result w); [right; by eexists _, _, _ | by left] |].
    right. by eexists _, _, _.
Qed.

(** X12. A run creates the state directory, with the directories above it
    that are missing, and writes to the three state files, and to nothing
    else: every path that names neither one of the three files nor the
    state directory or a directory above it holds after the run what it
    held before, however the run ends. *)
Theorem run_once_writes_only_state_files (debug : bool) (w : world) (path : str) :
  path ≠ hash_path (state_dir_of w) →
  path ≠ text_path (state_dir_of w) →
  path ≠ listings_path (state_dir_of w) →
  ¬ at_or_above path (state_dir_of w) →
  files (run_once debug w).2 !! path = files w !! path.
Proof.
  intros Hh Ht Hl _.
  destruct (run_once_cases debug w) as (r & t & fs & delta & -> & _ & _ & Hfs & _).
  cbn [snd files with_trace with_files].
  destruct Hfs as [-> | (h & text & listings & ->)]; [done |].
  unfold snapshot_files. by rewrite !lookup_insert_ne.
Qed.

(** X13. A run notifies at most once: either it calls no channel, or it
    calls Telegram once and then e-mail once, in this order; it never
    calls e-mail alone nor a channel twice. *)
Theorem run_once_notifies_at_most_once (debug : bool) (w : world) :
  notifications (trace (run_once debug w).2) = notifications (trace w)
  ∨ ∃ message subject body,
      notifications (trace (run_once debug w).2)
      = notifications (trace w)
        ++ [Telegram message (telegram_outcome w);
            Email subject body (email_outcome w)].
Proof.
  destruct (run_once_cases debug w)
    as (r & t & fs & delta & -> & Ht & _ & _ & Hdelta).
  cbn [snd trace with_trace with_files]. rewrite Ht.
  destruct Hdelta as [-> | (m & s & b & ->)].
  - left. by rewrite app_nil_r.
  - right. by exists m, s, b.
Qed.


(** X15. When the page cannot be fetched, [run_once] raises before it
    reads or writes the state: no file changes and no channel is called. *)
Theorem fetch_failure_aborts_run (debug : bool) (w : world) :
  http_get w (target_url w) = None →
  ∃ w',
    run_once debug w = (Raise HTTPError, w')
    ∧ files w' = files w
    ∧ notifications (trace w') = notifications (trace w).
Proof.
  intros Hfetch.
  destruct (run_once_fetch_failure debug w Hfetch) as (t & Hrun & Ht).
  eexists. split; [exact Hrun |]. by split.
Qed.

(** X16. When [run_once] raises, [main] exits with 1 after reporting the
    error, without touching a file: by e-mail if [EMAIL_ON_ERROR] is on
    (off when unset), then by Telegram if [TELEGRAM_ON_ERROR] is on (on
    when unset).  The e-mail report is not guarded: when it raises, the
    Telegram report is never sent. *)
Theorem main_reports_error (debug : bool) (w w1 : world) (e : exn) :
  run_once debug w = (Raise e, w1) →
  ∃ w2,
    main debug w = (1%Z, w2)
    ∧ files w2 = files w1
    ∧ notifications (trace w2)
      = notifications (trace w1)
        ++ (if env_flag "EMAIL_ON_ERROR" false w1
            then [Email "PSOAS watcher error" (exn_text e) (email_outcome w1)]
            else [])
        ++ (if env_flag "TELEGRAM_ON_ERROR" true w1
               && (negb (env_flag "EMAIL_ON_ERROR" false w1)
                   || match email_result w1 with
                      | Return _ => true
                      | Raise _ => false
                      end)
            then [Telegram (lit "PSOAS watcher error: " ++ exn_text e)
                    (telegram_outcome w1)]
            else []).
Proof.
  intros Hrun. unfold main. rewrite Hrun. eexists. split; [reflexivity |].
  run_monad. rewrite env_bool_spec. cbn [environ with_trace].
  change (env_flag "EMAIL_ON_ERROR" false (with_trace _ w1))
    with (env_flag "EMAIL_ON_ERROR" false w1).
  destruct (env_flag "EMAIL_ON_ERROR" false w1); run_monad;
    [rewrite send_email_spec;
     change (email_result (with_trace _ w1)) with (email_result w1);
     destruct (email_result w1) as [[]|e']; run_monad |];
    rewrite ?env_bool_spec;
    repeat match goal with
      | |- context [env_flag ?n ?d (with_trace ?t ?x)] =>
          change (env_flag n d (with_trace t x)) with (env_flag n d x)
      end;
    try (destruct (env_flag "TELEGRAM_ON_ERROR" true w1); run_monad);
    rewrite ?send_telegram_spec;
    cbn [snd files trace with_trace]; (split; [done |]);
    repeat match goal with
      | |- context [email_events ?s ?b (with_trace ?t ?x)] =>
          change (email_events s b (with_trace t x)) with (email_events s b x)
      | |- context [telegram_events ?m (with_trace ?t ?x)] =>
          change (telegram_events m (with_trace t x)) with (telegram_events m x)
      end;
    rewrite ?notifications_app, ?notifications_email, ?notifications_telegram;
    cbn [notifications List.filter is_notification app andb orb negb];
    rewrite ?app_nil_r, <- ?app_assoc; reflexivity.
Qed.

End EveryRun.

(** ** Runs in sequence and runs side by side *)

Section RunsCompared.
Context {E : Externals}.
Import Py.

(** What [read_state] returns depends on the files alone. *)
Lemma read_state_value_files state_dir w1 w2 :
  files w1 = files w2 →
  (read_state state_dir w1).1 = (read_state state_dir w2).1.
Proof.
  unfold read_state.
  set (hp := Os.path_join state_dir "last_hash.txt").
  set (tp := Os.path_join state_dir "last_text.txt").
  set (lp := Os.path_join state_dir "last_listings.txt").
  clearbody hp tp lp. intros Hfiles.
  destruct (files w2 !! hp) as [[dh|]|] eqn:Hh;
    destruct (files w2 !! tp) as [[dt|]|] eqn:Ht;
    destruct (files w2 !! lp) as [[dl|]|] eqn:Hl;
    repeat (progress (run_monad; rewrite ?Hfiles, ?Hh, ?Ht, ?Hl));
    reflexivity.
Qed.

Lemma stored_state_files w1 w2 :
  files w1 = files w2 → state_dir_of w1 = state_dir_of w2 →
  stored_state w1 = stored_state w2.
Proof.
  intros Hfiles Hdir. unfold stored_state.
  by rewrite Hdir, (read_state_value_files _ w1 w2 Hfiles).
Qed.

(** X17. A run that completed has nothing left to report: when the
    fingerprint and the listing URLs of the page survive the state files,
    a second run on the same page, right after a run that returned, calls
    no channel and writes no file, whichever branch the first run took. *)
Theorem rerun_after_completed_run_is_quiet
  (debug debug' : bool) (w w' : world) (html : str) (code : Z) :
  http_get w (target_url w) = Some html →
  run_once debug w = (Return code, w') →
  survives_state_file (stable_hash (normalize_text html)) →
  (∀ u, u ∈ extract_listings html (target_url w) → survives_state_file u) →
  ∃ w'',
    run_once debug' w' = (Return 0%Z, w'')
    ∧ files w'' = files w'
    ∧ notifications (trace w'') = notifications (trace w').
Proof.
  intros Hfetch Hrun Hhash_ok Hurls_ok.
  assert (∀ t,
    w' = with_trace t
           (with_files
              (snapshot_files (state_dir_of w) (stable_hash (normalize_text html))
                 (normalize_text html) (extract_listings html (target_url w))
                 (files w)) w) →
    ∃ w'',
      run_once debug' w' = (Return 0%Z, w'')
      ∧ files w'' = files w'
      ∧ notifications (trace w'') = notifications (trace w')) as Hsaved.
  { intros t ->.
    by apply (run_after_snapshot_is_quiet debug' _ html (files w)). }
  destruct (last_hash (stored_state w)) as [old_hash|] eqn:Hhash.
  2:{ destruct (run_once_baseline debug w html Hfetch Hhash) as (t & Hrun' & _).
      rewrite Hrun in Hrun'. injection Hrun' as _ Hw'. by apply (Hsaved t). }
  destruct (decide (extract_listings html (target_url w)
                    ∖ last_listings (stored_state w) = ∅)) as [Hnew | Hnew].
  2:{ destruct (run_once_new_listings debug w html old_hash Hfetch Hhash Hnew)
        as (t & Hrun' & _).
      rewrite Hrun in Hrun'. unfold after_email in Hrun'.
      destruct (email_result w); [| done].
      injection Hrun' as _ Hw'. by apply (Hsaved t). }
  destruct (decide (stable_hash (normalize_text html) = old_hash))
    as [Hsame | Hdiff].
  - subst old_hash.
    destruct (run_once_unchanged debug w html Hfetch Hhash Hnew)
      as (t & Hrun' & _).
    rewrite Hrun in Hrun'. injection Hrun' as _ ->.
    assert (stored_state (with_trace t w) = stored_state w) as Hstored.
    { by apply stored_state_files. }
    destruct (run_once_unchanged debug' (with_trace t w) html) as (t' & Hrun2 & Ht').
    + exact Hfetch.
    + by rewrite Hstored.
    + by rewrite Hstored.
    + eexists. split; [exact Hrun2 |]. by split.
  - destruct (run_once_changed debug w html old_hash Hfetch Hhash Hnew Hdiff)
      as (t & Hrun' & _).
    rewrite Hrun in Hrun'. unfold after_email in Hrun'.
    destruct (email_result w); [| done].
    injection Hrun' as _ Hw'. by apply (Hsaved t).
Qed.

(** X18. The Telegram service decides nothing: whether its POST succeeds
    or fails, [run_once] returns or raises the same and leaves the same
    files. *)
Theorem telegram_service_never_decides (debug up : bool) (w : world) :
  (run_once debug (with_telegram_up up w)).1 = (run_once debug w).1
  ∧ files (run_once debug (with_telegram_up up w)).2
    = files (run_once debug w).2.
Proof.
  set (w2 := with_telegram_up up w).
  assert (stored_state w2 = stored_state w) as Hstored
    by by apply stored_state_files.
  destruct (http_get w (target_url w)) as [html|] eqn:Hfetch.
  2:{ destruct (run_once_fetch_failure debug w Hfetch) as (t & -> & _).
      destruct (run_once_fetch_failure debug w2 Hfetch) as (t2 & -> & _).
      done. }
  destruct (last_hash (stored_state w)) as [old_hash|] eqn:Hhash.
  2:{ destruct (run_once_baseline debug w html Hfetch Hhash) as (t & -> & _).
      destruct (run_once_baseline debug w2 html Hfetch) as (t2 & -> & _);
        [by rewrite Hstored |]. done. }
  destruct (decide (extract_listings html (target_url w)
                    ∖ last_listings (stored_state w) = ∅)) as [Hnew | Hnew].
  2:{ destruct (run_once_new_listings debug w html old_hash Hfetch Hhash Hnew)
        as (t & -> & _).
      destruct (run_once_new_listings debug w2 html old_hash Hfetch)
        as (t2 & -> & _); [by rewrite Hstored | by rewrite Hstored |]. done. }
  destruct (decide (stable_hash (normalize_text html) = old_hash))
    as [Hsame | Hdiff].
  - subst old_hash.
    destruct (run_once_unchanged debug w html Hfetch Hhash Hnew) as (t & -> & _).
    destruct (run_once_unchanged debug w2 html Hfetch) as (t2 & -> & _);
      [by rewrite Hstored | by rewrite Hstored |]. done.
  - destruct (run_once_changed debug w html old_hash Hfetch Hhash Hnew Hdiff)
      as (t & -> & _).
    destruct (run_once_changed debug w2 html old_hash Hfetch)
      as (t2 & -> & _); [by rewrite Hstored | by rewrite Hstored | done |].
    done.
Qed.

(** The stored state when the fingerprint can be read and the listing set
    cannot be had: the text file cannot be read, or there is no listings
    file. *)
Lemma stored_state_without_listings w dh :
  files w !! hash_path (state_dir_of w) = Some (Readable dh) →
  files w !! text_path (state_dir_of w) = Some Unreadable
  ∨ files w !! listings_path (state_dir_of w) = None →
  last_hash (stored_state w)
  = (let stripped := strip (Os.universal_newlines dh) in
     if truthy stripped then Some stripped else None)
  ∧ last_listings (stored_state w) = ∅.
Proof.
  unfold stored_state, read_state, hash_path, text_path, listings_path.
  set (hp := Os.path_join (state_dir_of w) "last_hash.txt").
  set (tp := Os.path_join (state_dir_of w) "last_text.txt").
  set (lp := Os.path_join (state_dir_of w) "last_listings.txt").
  clearbody hp tp lp. intros Hh [Ht | Hl].
  - repeat (progress (run_monad; rewrite ?Hh, ?Ht)). done.
  - destruct (files w !! tp) as [[dt|]|] eqn:Ht;
      repeat (progress (run_monad; rewrite ?Hh, ?Ht, ?Hl)); done.
Qed.

(** X19. A stored fingerprint without a usable listing set makes every
    listing new: when the fingerprint file holds a fingerprint and the text
    file cannot be read, or the listings file is missing, a run on a page
    with listings reports all of them as new, whether or not the page
    changed (here with an e-mail call that returns). *)
Theorem lost_listing_set_reports_every_listing
  (debug : bool) (w : world) (html dh : str) :
  http_get w (target_url w) = Some html →
  files w !! hash_path (state_dir_of w) = Some (Readable dh) →
  truthy (strip (Os.universal_newlines dh)) = true →
  files w !! text_path (state_dir_of w) = Some Unreadable
  ∨ files w !! listings_path (state_dir_of w) = None →
  extract_listings html (target_url w) ≠ ∅ →
  email_result w = Return tt →
  let message :=
    new_listings_message (utc_now w) (target_url w)
      (sorted (elements (extract_listings html (target_url w)))) in
  ∃ w',
    run_once debug w = (Return 0%Z, w')
    ∧ notifications (trace w')
      = notifications (trace w)
        ++ [Telegram message (telegram_outcome w);
            Email new_listings_subject message (email_outcome w)].
Proof.
  intros Hfetch Hh Hdh Hlost Hsome Hmail message.
  destruct (stored_state_without_listings w dh Hh Hlost) as [Hhash Hnone].
  cbn zeta in Hhash. rewrite Hdh in Hhash.
  destruct (run_once_new_listings debug w html _ Hfetch Hhash) as (t & Hrun & Ht).
  { rewrite Hnone. by rewrite difference_empty_L. }
  unfold after_email in Hrun. rewrite Hmail in Hrun.
  rewrite Hnone, difference_empty_L in Ht.
  eexists. split; [exact Hrun | exact Ht].
Qed.

End RunsCompared.

(** ** The files [write_state] leaves *)

Section WriteState.
Import Py.

Lemma iter_lines_urls (urls : list str) :
  Forall (λ u, LF ∉ u) urls →
  Os.iter_lines (concat (map (λ url, url ++ nl) urls))
  = map (λ url, url ++ nl) urls.
Proof.
  induction 1 as [|u urls Hu _ IH]; [done |].
  cbn [map concat]. rewrite <- app_assoc.
  change (nl ++ concat (map (λ url, url ++ nl) urls))
    with (LF :: concat (map (λ url, url ++ nl) urls)).
  by rewrite iter_lines_line, IH.
Qed.

(** X23. When [write_state] returns, the fingerprint file holds the
    fingerprint and the text file holds the text.  Given a listing set, the
    listings file then holds one URL per line, every URL of the set once,
    in ascending order; given no listing set, the listings file is as it
    was. *)
Theorem write_state_file_format
  (state_dir h text : str) (listings : gset str) (w w' : world) :
  (∀ u, u ∈ listings → LF ∉ u) →
  (write_state state_dir h text (Some listings) w = (Return tt, w') →
   ∃ content lines,
     files w' !! hash_path state_dir = Some (Readable h)
     ∧ files w' !! text_path state_dir = Some (Readable text)
     ∧ files w' !! listings_path state_dir = Some (Readable content)
     ∧ Os.iter_lines content = map (λ url, url ++ nl) lines
     ∧ Sorted str_le lines
     ∧ NoDup lines
     ∧ (∀ u, u ∈ lines ↔ u ∈ listings))
  ∧ (write_state state_dir h text None w = (Return tt, w') →
     files w' !! hash_path state_dir = Some (Readable h)
     ∧ files w' !! text_path state_dir = Some (Readable text)
     ∧ files w' !! listings_path state_dir
       = files w !! listings_path state_dir).
Proof.
  intros Hurls.
  destruct (state_paths_differ state_dir) as (Hht & Hhl & Htl).
  split.
  - rewrite write_state_spec. intros [= <-]. cbn [files with_files].
    destruct (snapshot_files_lookup state_dir h text listings (files w))
      as (Hh & Ht & Hl).
    eexists _, (sorted (elements listings)).
    split; [exact Hh |]. split; [exact Ht |].
    split; [exact Hl |].
    assert (∀ u, u ∈ sorted (elements listings) ↔ u ∈ listings) as Helem.
    { intros u. unfold sorted.
      rewrite (merge_sort_Permutation str_le). apply elem_of_elements. }
    split; [| split; [| split; [| done]]].
    + apply iter_lines_urls, Forall_forall. intros u Hu.
      by apply Hurls, Helem.
    + apply Sorted_merge_sort, _.
    + unfold sorted. rewrite (merge_sort_Permutation str_le).
      apply NoDup_elements.
  - intros [= <-].
    cbn [files with_files]. split; [| split].
    + rewrite lookup_insert_ne by done. apply lookup_insert_eq.
    + apply lookup_insert_eq.
    + by rewrite !lookup_insert_ne.
Qed.

End WriteState.

(** ** The further statements on the example worlds *)

Section FurtherWitnesses.
Import Example.

Ltac compute_eq := vm_compute; reflexivity.
Ltac decide_by_computation := apply (bool_decide_unpack _); vm_compute; exact I.
Ltac survives :=
  unfold survives_state_file;
  split; [decide_by_computation |];
  split; [compute_eq |];
  split; decide_by_computation.

Lemma env_bool_accepts_any_case_and_padding_witness :
  env_bool "NOTIFY_ON_FIRST_RUN" true
    (with_environ {[ lit "NOTIFY_ON_FIRST_RUN" := lit " False" ++ nl ]}
       (world_with page_one ∅ false true))
  = (Return false,
     with_environ {[ lit "NOTIFY_ON_FIRST_RUN" := lit " False" ++ nl ]}
       (world_with page_one ∅ false true)).
Proof.
  destruct (env_bool_accepts_any_case_and_padding "NOTIFY_ON_FIRST_RUN" true
              (with_environ {[ lit "NOTIFY_ON_FIRST_RUN" := lit " False" ++ nl ]}
                 (world_with page_one ∅ false true))
              " " "False" nl)
    as (_ & _ & _ & Hother & _).
  - repeat constructor.
  - repeat constructor.
  - apply Hother; [compute_eq | decide_by_computation].
Defined.

Lemma make_diff_lines_bounded_witness :
  (Z.of_nat (length (make_diff_lines (E := libs) "one" "two" 3)) ≤ 3 + 1)%Z.
Proof. apply (make_diff_lines_bounded (E := libs) "one" "two" 3). lia. Defined.

Lemma make_diff_negative_maximum_witness :
  make_diff_lines (E := libs) "one" "one" (-1) = [truncation_marker].
Proof.
  rewrite (make_diff_negative_maximum (E := libs) "one" "one" (-1)) by lia.
  compute_eq.
Defined.

Lemma send_email_bad_port_raises_witness :
  (send_email "s" "b"
     (with_environ {[ lit "SMTP_PORT" := lit "smtp" ]}
        (world_with page_one ∅ false true))).1
  = Raise ValueError.
Proof.
  rewrite (send_email_bad_port_raises "s" "b"
             (with_environ {[ lit "SMTP_PORT" := lit "smtp" ]}
                (world_with page_one ∅ false true)) "smtp");
    [done | compute_eq | compute_eq].
Defined.

Lemma send_email_configuration_witness :
  (send_email "s" "b" (world_with page_one ∅ false false)).1
  = Raise SMTPException.
Proof.
  destruct (send_email_configuration "s" "b" (world_with page_one ∅ false false))
    as [Hconf _]; [compute_eq |].
  rewrite Hconf; [done | compute_eq ..].
Defined.

Lemma write_state_read_state_round_trip_witness :
  ∃ w1,
    write_state "/var/psoas" "71863edb" (lit "Flats" ++ nl ++ lit "Alpha 1")
      (Some {[ lit "https://www.psoas.fi/en/apartments/alpha-1" ]})
      (world_with page_one ∅ false true)
    = (Return tt, w1)
    ∧ read_state "/var/psoas" w1
      = (Return
           {| last_hash := Some (lit "71863edb");
              last_text := Some (lit "Flats" ++ nl ++ lit "Alpha 1");
              last_listings :=
                {[ lit "https://www.psoas.fi/en/apartments/alpha-1" ]} |},
         w1).
Proof.
  apply write_state_read_state_round_trip.
  - survives.
  - intros u ->%elem_of_singleton. survives.
  - decide_by_computation.
Defined.

Lemma run_once_writes_only_state_files_witness :
  files (run_once (E := libs) false
           (world_with page_one {[ lit "/etc/motd" := Readable "hello" ]}
              false true)).2
  !! lit "/etc/motd"
  = Some (Readable "hello").
Proof.
  rewrite (run_once_writes_only_state_files (E := libs) false
             (world_with page_one {[ lit "/etc/motd" := Readable "hello" ]}
                false true) "/etc/motd").
  - compute_eq.
  - vm_compute. discriminate.
  - vm_compute. discriminate.
  - vm_compute. discriminate.
  - intros (rest & Hrest & _). vm_compute in Hrest. discriminate.
Defined.

Lemma fetch_failure_aborts_run_witness :
  ∃ w',
    run_once (E := libs) true
      (with_environ {[ lit "URL" := lit "https://elsewhere.example/" ]}
         (world_with page_one (saved page_one) false true))
    = (Raise HTTPError, w')
    ∧ files w' = saved page_one.
Proof.
  destruct (fetch_failure_aborts_run (E := libs) true
              (with_environ {[ lit "URL" := lit "https://elsewhere.example/" ]}
                 (world_with page_one (saved page_one) false true)))
    as (w' & Hrun & Hfiles & _); [compute_eq |].
  exists w'. split; [exact Hrun | exact Hfiles].
Defined.

Lemma main_reports_error_witness :
  ∃ w2,
    main (E := libs) false (world_with page_two (saved page_one) true false)
    = (1%Z, w2)
    ∧ files w2 = saved page_one.
Proof.
  destruct (main_reports_error (E := libs) false
              (world_with page_two (saved page_one) true false)
              (run_once (E := libs) false
                 (world_with page_two (saved page_one) true false)).2
              SMTPException)
    as (w2 & Hmain & Hfiles & _); [compute_eq |].
  exists w2. split; [exact Hmain |]. rewrite Hfiles. compute_eq.
Defined.

Lemma rerun_after_completed_run_is_quiet_witness :
  ∃ w'',
    run_once (E := libs) false
      (run_once (E := libs) false
         (world_with page_two (saved page_one) true true)).2
    = (Return 0%Z, w'').
Proof.
  destruct (rerun_after_completed_run_is_quiet (E := libs) false false
              (world_with page_two (saved page_one) true true)
              (run_once (E := libs) false
                 (world_with page_two (saved page_one) true true)).2
              page_two 0%Z)
    as (w'' & Hrun & _).
  - compute_eq.
  - compute_eq.
  - survives.
  - intros u Hu.
    assert (u = lit "https://www.psoas.fi/en/apartments/alpha-1"
            ∨ u = lit "https://www.psoas.fi/en/apartments/beta-2") as [-> | ->].
    { revert Hu.
      assert (extract_listings (E := libs) page_two (target_url
                (world_with page_two (saved page_one) true true))
              = {[ lit "https://www.psoas.fi/en/apartments/alpha-1";
                   lit "https://www.psoas.fi/en/apartments/beta-2" ]}) as ->
        by compute_eq.
      rewrite elem_of_union, !elem_of_singleton. tauto. }
    + survives.
    + survives.
  - by exists w''.
Defined.

Lemma lost_listing_set_reports_every_listing_witness :
  ∃ w',
    run_once (E := libs) false
      (world_with page_one
         (<[text_path "/var/psoas" := Unreadable]> (saved page_one)) true true)
    = (Return 0%Z, w').
Proof.
  destruct (lost_listing_set_reports_every_listing (E := libs) false
              (world_with page_one
                 (<[text_path "/var/psoas" := Unreadable]> (saved page_one))
                 true true)
              page_one "71863edb")
    as (w' & Hrun & _).
  - compute_eq.
  - compute_eq.
  - compute_eq.
  - left. compute_eq.
  - decide_by_computation.
  - compute_eq.
  - by exists w'.
Defined.

Lemma new_listings_run_saves_witness :
  (main (E := libs) false (world_with page_two (saved page_one) true true)).1
  = 0%Z.
Proof.
  destruct (new_listings_run_saves (E := libs) false
              (world_with page_two (saved page_one) true true) page_two
              (Reference.digest (normalize_text (E := libs) page_one)))
    as (w' & _ & Hmain & _).
  - compute_eq.
  - compute_eq.
  - decide_by_computation.
  - compute_eq.
  - by rewrite Hmain.
Defined.

Lemma changed_run_saves_witness :
  (main (E := libs) false (world_with page_three (saved page_one) true true)).1
  = 0%Z.
Proof.
  destruct (changed_run_saves (E := libs) false
              (world_with page_three (saved page_one) true true) page_three
              (Reference.digest (normalize_text (E := libs) page_one)))
    as (w' & _ & Hmain & _).
  - compute_eq.
  - compute_eq.
  - compute_eq.
  - decide_by_computation.
  - compute_eq.
  - by rewrite Hmain.
Defined.

Lemma baseline_run_saves_witness :
  (main (E := libs) false (world_with page_one ∅ true true)).1 = 0%Z.
Proof.
  destruct (baseline_run_saves (E := libs) false
              (world_with page_one ∅ true true) page_one)
    as (w' & _ & Hmain & _).
  - compute_eq.
  - compute_eq.
  - right. compute_eq.
  - by rewrite Hmain.
Defined.

Lemma write_state_file_format_witness :
  files (write_state "/var/psoas" "h" "t"
           (Some {[ lit "https://www.psoas.fi/en/apartments/alpha-1" ]})
           (world_with page_one ∅ false true)).2
  !! hash_path "/var/psoas"
  = Some (Readable "h").
Proof.
  destruct (write_state_file_format "/var/psoas" "h" "t"
              {[ lit "https://www.psoas.fi/en/apartments/alpha-1" ]}
              (world_with page_one ∅ false true)
              (write_state "/var/psoas" "h" "t"
                 (Some {[ lit "https://www.psoas.fi/en/apartments/alpha-1" ]})
                 (world_with page_one ∅ false true)).2)
    as [Hsome _].
  - intros u ->%elem_of_singleton. decide_by_computation.
  - destruct Hsome as (content & lines & Hhash & _); [compute_eq | exact Hhash].
Defined.


End FurtherWitnesses.
